(** * RAG chatbot (src/app.py): document indexing and conversational retrieval

    A shallow embedding of the Flask application in [src/app.py]: the upload
    and ingestion path ([upload_files], [process_documents],
    [load_documents_from_directory]), the chat path ([chat],
    [retrieve_documents], [get_groq_response]) and the process-wide state
    they share (the [uploads] folder, the [chroma_db] directory, the global
    [document_store], the Redis message histories).

    External collaborators (the order in which the file system lists a
    folder, document loaders, the Chroma library opening a collection, the
    embedder, similarity search, the Groq completion call,
    [secure_filename], the clock and [os.urandom]) are parameters of the
    development.  The session store is taken to answer: the Redis reads and
    writes of [chat] return, and the JSON body of a chat request is an
    object whose [message], if any, is a string. *)

From stdpp Require Import gmap strings list fin_maps pretty.
From Stdlib Require Import ZArith Lia Ascii.


(** ** Chunker *)

Module Chunker.

Section Windows.
Context {A : Type}.
Variables (L O : nat).

(** Modelled from the spec: the splitting routine itself.  The source only
    configures and calls [RecursiveCharacterTextSplitter] of the langchain
    package ([initialize_components], [process_documents]); its code is
    not part of [src/].  Section 4.1 of the specification: slide a window
    of size [L] forward by [L - O] each step until the remaining text is
    shorter than [L], then emit the remainder as a final, possibly
    shorter, chunk; the empty text gives the empty sequence.

    [fuel] bounds the number of windows; [chunk] supplies enough of it. *)
Fixpoint windows (fuel : nat) (t : list A) : list (list A) :=
  match fuel with
  | 0 => []
  | S fuel' =>
      if length t <? L
      then match t with [] => [] | _ :: _ => [t] end
      else take L t :: windows fuel' (drop (L - O) t)
  end.

Definition chunk (t : list A) : list (list A) := windows (S (length t)) t.

(** Re-concatenation with the leading overlap of every chunk but the first
    removed. *)
Definition strip_overlaps (cs : list (list A)) : list A :=
  concat (map (drop O) cs).

Definition rejoin (cs : list (list A)) : list A :=
  match cs with
  | [] => []
  | c :: rest => c ++ strip_overlaps rest
  end.

End Windows.

End Chunker.

(** ** Python strings

    Strings are byte strings here; [lower] and [strip] are the ASCII
    restrictions of [str.lower] and [str.strip]: on ASCII text they give
    what Python gives, and [strip] leaves Unicode white space such as
    U+00A0 in place, which [str.strip] removes. *)

Module Py.

Definition LF : string := String "010"%char "".

(** Truth value of a [str]: the empty string is falsy. *)
Definition truthy (s : string) : bool :=
  match s with "" => false | String _ _ => true end.

(** Truth value of an optional [str] ([None] is falsy). *)
Definition truthy_opt (o : option string) : bool :=
  match o with Some s => truthy s | None => false end.

Definition lower_ascii (a : ascii) : ascii :=
  let n := N_of_ascii a in
  if ((65 <=? n) && (n <=? 90))%N then ascii_of_N (n + 32) else a.

Fixpoint lower (s : string) : string :=
  match s with
  | "" => ""
  | String a s' => String (lower_ascii a) (lower s')
  end.

(** [s.rsplit('.', 1)] when ['.' in s]: the text before and after the last
    dot. *)
Fixpoint rsplit_dot (s : string) : option (string * string) :=
  match s with
  | "" => None
  | String a s' =>
      match rsplit_dot s' with
      | Some (pre, ext) => Some (String a pre, ext)
      | None => if Ascii.eqb a "." then Some ("", s') else None
      end
  end.

Definition is_space (a : ascii) : bool :=
  let n := N_of_ascii a in
  (((9 <=? n) && (n <=? 13)) || ((28 <=? n) && (n <=? 32)))%N.

Fixpoint lstrip (s : string) : string :=
  match s with
  | "" => ""
  | String a s' => if is_space a then lstrip s' else s
  end.

Definition strip (s : string) : string :=
  String.rev (lstrip (String.rev (lstrip s))).

(** [sep.join(parts)] *)
Definition join (sep : string) (parts : list string) : string :=
  String.concat sep parts.

Definition hex_digit (n : N) : ascii :=
  if (n <? 10)%N then ascii_of_N (48 + n) else ascii_of_N (87 + n).

(** [bytes.hex()] *)
Fixpoint hex (bs : list Byte.byte) : string :=
  match bs with
  | [] => ""
  | b :: bs' =>
      let n := Byte.to_N b in
      String (hex_digit (n / 16)) (String (hex_digit (n mod 16)) (hex bs'))
  end.

(** [pathlib.PurePath.suffix] of a file name: the last dot and what follows
    it, unless the dot is the first or the last character. *)
Definition suffix (name : string) : string :=
  match rsplit_dot name with
  | Some (String _ _, String a ext) => String "." (String a ext)
  | _ => ""
  end.

End Py.

(** ** Configuration (module level of [app.py]) *)

Definition UPLOAD_FOLDER : string := "uploads".
Definition ALLOWED_EXTENSIONS : list string := ["pdf"; "txt"].

(** [allowed_file]: the name has a dot and the part after the last dot,
    lower-cased, is an allowed extension. *)
Definition allowed_file (filename : string) : bool :=
  match Py.rsplit_dot filename with
  | Some (_, ext) => bool_decide (Py.lower ext ∈ ALLOWED_EXTENSIONS)
  | None => false
  end.

(** ** Data model *)

(** A langchain [Document]: text plus the file it came from. *)
Record Document := { page_content : string; metadata_source : string }.

(** The configured [RecursiveCharacterTextSplitter]. *)
Record TextSplitter := { chunk_size : nat; chunk_overlap : nat }.

(** The configured embedding client. *)
Record Embeddings := { model : string }.

(** An embedding vector; the components stand for the floats returned by the
    embedding service. *)
Definition Vector : Type := list Z.

(** A [Chroma] object: the collection it was built on, which it keeps
    answering from, and where that collection was persisted. *)
Record Chroma := {
  persist_directory : string;
  collection_name : string;
  _collection : list (Document * Vector)
}.

Inductive MsgType := human | ai.

(** A chat message as stored by [RedisChatMessageHistory]. *)
Record Message := { type : MsgType; content : string }.

(** A [werkzeug] [FileStorage] of a multipart upload. *)
Record FileStorage := { filename : string; stream : string }.

(** Process-wide state: the two directories the application writes, the
    module globals, the Redis message lists and the prompts sent to Groq. *)
Record State := {
  uploads : gmap string string;
  chroma_db : option (list (Document * Vector));
  document_store : option Chroma;
  embeddings : option Embeddings;
  text_splitter : option TextSplitter;
  redis : gmap string (list Message);
  groq_calls : list string
}.

Definition set_uploads (u : gmap string string) (s : State) : State :=
  {| uploads := u; chroma_db := chroma_db s;
     document_store := document_store s; embeddings := embeddings s;
     text_splitter := text_splitter s; redis := redis s;
     groq_calls := groq_calls s |}.

Definition set_chroma_db (c : option (list (Document * Vector))) (s : State)
  : State :=
  {| uploads := uploads s; chroma_db := c;
     document_store := document_store s; embeddings := embeddings s;
     text_splitter := text_splitter s; redis := redis s;
     groq_calls := groq_calls s |}.

Definition set_document_store (d : option Chroma) (s : State) : State :=
  {| uploads := uploads s; chroma_db := chroma_db s;
     document_store := d; embeddings := embeddings s;
     text_splitter := text_splitter s; redis := redis s;
     groq_calls := groq_calls s |}.

Definition set_embeddings (e : option Embeddings) (s : State) : State :=
  {| uploads := uploads s; chroma_db := chroma_db s;
     document_store := document_store s; embeddings := e;
     text_splitter := text_splitter s; redis := redis s;
     groq_calls := groq_calls s |}.

Definition set_text_splitter (t : option TextSplitter) (s : State) : State :=
  {| uploads := uploads s; chroma_db := chroma_db s;
     document_store := document_store s; embeddings := embeddings s;
     text_splitter := t; redis := redis s;
     groq_calls := groq_calls s |}.

Definition set_redis (r : gmap string (list Message)) (s : State) : State :=
  {| uploads := uploads s; chroma_db := chroma_db s;
     document_store := document_store s; embeddings := embeddings s;
     text_splitter := text_splitter s; redis := r;
     groq_calls := groq_calls s |}.

Definition set_groq_calls (g : list string) (s : State) : State :=
  {| uploads := uploads s; chroma_db := chroma_db s;
     document_store := document_store s; embeddings := embeddings s;
     text_splitter := text_splitter s; redis := redis s;
     groq_calls := g |}.

(** State of a freshly started process with nothing on disk. *)
Definition initial_state : State :=
  {| uploads := ∅; chroma_db := None; document_store := None;
     embeddings := None; text_splitter := None; redis := ∅;
     groq_calls := [] |}.

(** ** Effects: state and exceptions *)

(** Result of a Python call: a value, or a raised exception carrying
    [str(e)]. *)
Inductive outcome (A : Type) : Type :=
| Returns (a : A)
| Raises (e : string).
Arguments Returns {A} a.
Arguments Raises {A} e.

(** A computation over the process state; the state survives a raise. *)
Definition M (A : Type) : Type := State -> outcome A * State.

Definition ret {A} (a : A) : M A := fun s => (Returns a, s).

Definition raise {A} (e : string) : M A := fun s => (Raises e, s).

Definition bind {A B} (c : M A) (k : A -> M B) : M B :=
  fun s =>
    match c s with
    | (Returns a, s') => k a s'
    | (Raises e, s') => (Raises e, s')
    end.

(** [try: c except Exception as e: h(str(e))] *)
Definition try_except {A} (c : M A) (h : string -> M A) : M A :=
  fun s =>
    match c s with
    | (Returns a, s') => (Returns a, s')
    | (Raises e, s') => h e s'
    end.

Definition get : M State := fun s => (Returns s, s).

Definition modify (f : State -> State) : M unit := fun s => (Returns tt, f s).

Definition lift {A} (o : outcome A) : M A := fun s => (o, s).

Notation "'do' x <- c ; k" := (bind c (fun x => k))
  (at level 10, x name, c at level 100, k at level 200,
   format "'[v' 'do'  x  <-  c ; '/' k ']'").

(** ** External collaborators

    The libraries and services [app.py] calls.  A loader receives the path
    and the bytes of the file; every call that goes to a service or into a
    library may raise. *)
Class Collaborators := {
  (** the entries of a folder, name and content, in the order in which the
      file system lists them: [os.listdir] gives their names in this order
      and [Path.glob('*')] their paths *)
  listdir : gmap string string -> list (string * string);
  listdir_entries : forall folder, listdir folder ≡ₚ map_to_list folder;
  PyPDFLoader_load : string -> string -> outcome (list Document);
  TextLoader_load : string -> string -> outcome (list Document);
  (** what the Chroma library does when [Chroma.from_documents] opens the
      collection for the documents it is given, the process already holding
      the Chroma object bound to [document_store], if any *)
  chroma_open : option Chroma -> list Document -> outcome unit;
  embed_document : string -> outcome Vector;
  embed_query : string -> outcome Vector;
  (** positions in the collection, best match first *)
  rank : Vector -> list (Document * Vector) -> list nat;
  (** [groq_client.chat.completions.create(...).choices[0].message.content] *)
  groq_create : string -> outcome string;
  secure_filename : string -> string
}.

(** HTTP responses of the two endpoints. *)
Inductive Body :=
| ErrorBody (error : string)
| UploadBody (message : string) (files : list string)
| ChatBody (answer : string) (response_time : Z) (context : list string)
           (chat_history : list string).

Record Response := { status : nat; body : Body }.

(** The dictionary returned by [retrieve_documents]: with an ['answer'] key,
    or with the retrieved context. *)
Inductive DocResponse :=
| Answered (answer : string) (response_time : Z) (context : list string)
| Retrieved (context : list string) (context_str : string)
            (response_time : Z).

Record ChatRequest := {
  (** ['message'] of the JSON body, [None] when absent *)
  json_message : option string;
  (** ['session_id'] of the client's Flask session cookie *)
  session_cookie : option string;
  remote_addr : option string
}.

(** What the operating system hands to one chat request. *)
Record ChatEnv := {
  os_urandom : nat -> list Byte.byte;
  process_time_start : Z;
  process_time_end : Z
}.

(** ** Prompt assembly ([get_groq_response], lines 135-152) *)

Definition sender (msg : Message) : string :=
  match type msg with human => "User" | ai => "AI" end.

(** The loop [history_text += f"{sender}: {msg.content}\n"]. *)
Definition history_text (chat_history : list Message) : string :=
  fold_left
    (fun acc msg => acc +:+ (sender msg +:+ ": " +:+ content msg +:+ Py.LF))
    chat_history "".

Definition instruction_block : string :=
  "Answer the question based on the provided context only." +:+ Py.LF +:+
  "Please provide the most accurate response based on the question." +:+
  Py.LF.

Definition formatted_prompt (prompt context : string)
    (chat_history : list Message) : string :=
  Py.LF +:+ history_text chat_history +:+ Py.LF +:+
  instruction_block +:+ Py.LF +:+
  "Context:" +:+ Py.LF +:+ context +:+ Py.LF +:+ Py.LF +:+
  "Question: " +:+ prompt +:+ Py.LF +:+ Py.LF +:+
  "Answer:" +:+ Py.LF.

(** ** Session resolution ([chat], lines 241-245) *)

(** The session id of a request and the cookie value after it. *)
Definition resolve_session (req : ChatRequest) (env : ChatEnv)
  : string * option string :=
  if Py.truthy_opt (session_cookie req)
  then (default "" (session_cookie req), session_cookie req)
  else
    let session_id :=
      if Py.truthy_opt (remote_addr req)
      then default "" (remote_addr req)
      else Py.hex (os_urandom env 8) in
    (session_id, Some session_id).

(** ** Session memory ([get_memory], Redis-backed) *)

(** [memory.load_memory_variables({}).get("chat_history", [])] *)
Definition load_memory_variables (session_id : string) : M (list Message) :=
  do s <- get;
  ret (default [] (redis s !! session_id)).

Definition add_message (session_id : string) (msg : Message) : M unit :=
  modify (fun s =>
    set_redis (<[session_id := default [] (redis s !! session_id) ++ [msg]]>
                 (redis s)) s).

Definition add_user_message (session_id text : string) : M unit :=
  add_message session_id {| type := human; content := text |}.

Definition add_ai_message (session_id text : string) : M unit :=
  add_message session_id {| type := ai; content := text |}.

(** ** The application *)

Section App.
Context `{Collaborators}.

Definition initialize_components : M unit :=
  do s <- get;
  do _ <- match embeddings s with
          | None =>
              modify (set_embeddings (Some {| model := "models/embedding-001" |}))
          | Some _ => ret tt
          end;
  do s <- get;
  match text_splitter s with
  | None =>
      modify (set_text_splitter
                (Some {| chunk_size := 1000; chunk_overlap := 200 |}))
  | Some _ => ret tt
  end.

(** Modelled from the spec: [text_splitter.split_text], the langchain
    routine behind [split_documents]; its code is not part of [src/].  With
    [length_function=len] the units of a text are its characters, and the
    text is cut by the sliding window of section 4.1 ([Chunker.chunk]). *)
Definition split_text (ts : TextSplitter) (text : string) : list string :=
  String.string_of_list_ascii <$>
    Chunker.chunk (chunk_size ts) (chunk_overlap ts)
      (String.list_ascii_of_string text).

(** Modelled from the spec: [text_splitter.split_documents], called on line
    109.  Section 4.3: every document is chunked on its own, so no chunk
    crosses a document boundary; each chunk keeps the document's metadata. *)
Definition split_documents (ts : TextSplitter) (documents : list Document)
  : list Document :=
  flat_map
    (fun d =>
       (fun c => {| page_content := c;
                    metadata_source := metadata_source d |}) <$>
         split_text ts (page_content d))
    documents.

(** The loop of [load_documents_from_directory] over the directory
    entries, [documents] being the list built so far. *)
Fixpoint load_entries (directory_path : string)
    (entries : list (string * string)) (documents : list Document)
  : outcome (list Document) :=
  match entries with
  | [] => Returns documents
  | (name, bytes) :: rest =>
      let file_path := directory_path +:+ "/" +:+ name in
      if decide (Py.lower (Py.suffix name) = ".pdf") then
        match PyPDFLoader_load file_path bytes with
        | Returns docs => load_entries directory_path rest (documents ++ docs)
        | Raises e => Raises e
        end
      else if decide (Py.lower (Py.suffix name) = ".txt") then
        match TextLoader_load file_path bytes with
        | Returns docs => load_entries directory_path rest (documents ++ docs)
        | Raises e => Raises e
        end
      else load_entries directory_path rest documents
  end.

(** Only the upload folder is ever listed. *)
Definition load_documents_from_directory (directory_path : string)
  : M (list Document) :=
  do s <- get;
  lift (load_entries directory_path (listdir (uploads s)) []).

Fixpoint embed_all (documents : list Document)
  : outcome (list (Document * Vector)) :=
  match documents with
  | [] => Returns []
  | d :: rest =>
      match embed_document (page_content d) with
      | Raises e => Raises e
      | Returns v =>
          match embed_all rest with
          | Raises e => Raises e
          | Returns indexed => Returns ((d, v) :: indexed)
          end
      end
  end.

(** [Chroma.from_documents] as seen from [app.py].  The library opens the
    collection and the embedder embeds the documents; either may raise, and
    then nothing is left under the persist directory that was not there.
    Otherwise the documents are added to what the directory holds and the
    object returned answers from that collection. *)
Definition Chroma_from_documents (documents : list Document)
    (persist_directory collection_name : string) : M Chroma :=
  do s <- get;
  do _ <- lift (chroma_open (document_store s) documents);
  do indexed <- lift (embed_all documents);
  let built := default [] (chroma_db s) ++ indexed in
  do _ <- modify (set_chroma_db (Some built));
  ret {| persist_directory := persist_directory;
         collection_name := collection_name;
         _collection := built |}.

Definition process_documents : M bool :=
  do _ <- initialize_components;
  do documents <- load_documents_from_directory UPLOAD_FOLDER;
  match documents with
  | [] => ret false
  | _ :: _ =>
      do s <- get;
      match text_splitter s with
      | None => raise "'NoneType' object has no attribute 'split_documents'"
      | Some ts =>
          let final_documents := split_documents ts documents in
          let persist_directory := "./chroma_db" in
          do _ <- match chroma_db s with
                  | Some _ => modify (set_chroma_db None)
                  | None => ret tt
                  end;
          do store <- Chroma_from_documents final_documents
                        persist_directory "rag_collection";
          do _ <- modify (set_document_store (Some store));
          ret true
      end
  end.

(** [document_store.as_retriever(search_type="similarity",
    search_kwargs={"k": 4}).invoke(input_prompt)]: the object answers from
    the collection it was built on, whatever has become of the persist
    directory since. *)
Definition retriever_invoke (store : Chroma) (input_prompt : string)
  : M (list Document) :=
  do v <- lift (embed_query input_prompt);
  ret (take 4 (omap (fun i => fst <$> _collection store !! i)
                    (rank v (_collection store)))).

Definition retrieve_documents (input_prompt : string) (env : ChatEnv)
  : M DocResponse :=
  do s <- get;
  match document_store s with
  | None =>
      ret (Answered
             "No documents uploaded yet. Please upload documents first."
             0 [])
  | Some store =>
      let start_time := process_time_start env in
      try_except
        (do relevant_docs <- retriever_invoke store input_prompt;
         let context :=
           Py.join (Py.LF +:+ Py.LF) (page_content <$> relevant_docs) in
         let response_time := (process_time_end env - start_time)%Z in
         ret (Retrieved (page_content <$> relevant_docs) context
                        response_time))
        (fun e => ret (Answered ("Error processing query: " +:+ e) 0 []))
  end.

(** The completion call; every prompt sent is logged in [groq_calls]. *)
Definition groq_chat_completion (content : string) : M string :=
  do _ <- modify (fun s => set_groq_calls (groq_calls s ++ [content]) s);
  lift (groq_create content).

Definition get_groq_response (prompt context : string)
    (chat_history : list Message) : M string :=
  try_except
    (do chat_completion <-
          groq_chat_completion (formatted_prompt prompt context chat_history);
     ret (Py.strip chat_completion))
    (fun e => ret ("Error generating response: " +:+ e)).

(** The loop [for file in os.listdir(UPLOAD_FOLDER): os.remove(...)]. *)
Definition remove_listed (names : list string) (folder : gmap string string)
  : gmap string string :=
  foldr (fun name acc => delete name acc) folder names.

(** [file.save(os.path.join(UPLOAD_FOLDER, filename))]; an empty name
    denotes the folder itself. *)
Definition file_save (filename bytes : string) : M unit :=
  if Py.truthy filename
  then modify (fun s => set_uploads (<[filename := bytes]> (uploads s)) s)
  else raise ("[Errno 21] Is a directory: '" +:+ UPLOAD_FOLDER +:+ "/'").

(** The loop of [upload_files] over the submitted files. *)
Fixpoint save_files (files : list FileStorage) (uploaded_files : list string)
  : M (list string) :=
  match files with
  | [] => ret uploaded_files
  | file :: rest =>
      if Py.truthy (filename file) && allowed_file (filename file) then
        let filename := secure_filename (filename file) in
        do _ <- file_save filename (stream file);
        save_files rest (uploaded_files ++ [filename])
      else save_files rest uploaded_files
  end.

(** [POST /upload]; [files] is [request.files.getlist('files')], empty
    exactly when the form has no ['files'] field. *)
Definition upload_files (files : list FileStorage) : M Response :=
  match files with
  | [] => ret {| status := 400; body := ErrorBody "No files provided" |}
  | _ :: _ =>
      if forallb (fun file => negb (Py.truthy (filename file))) files
      then ret {| status := 400; body := ErrorBody "No files selected" |}
      else
        do _ <- modify (fun s =>
                  set_uploads
                    (remove_listed (fst <$> listdir (uploads s))
                                   (uploads s)) s);
        do uploaded_files <- save_files files [];
        match uploaded_files with
        | [] =>
            ret {| status := 400;
                   body := ErrorBody "No valid files uploaded" |}
        | _ :: _ =>
            do success <- process_documents;
            if success : bool then
              ret {| status := 200;
                     body := UploadBody
                       ("Successfully uploaded and processed " +:+
                        pretty (length uploaded_files) +:+ " files")
                       uploaded_files |}
            else
              ret {| status := 500;
                     body := ErrorBody "Failed to process documents" |}
        end
  end.

(** [POST /chat]; returns the response and the client's session cookie
    after the request. *)
Definition chat (req : ChatRequest) (env : ChatEnv)
  : M (Response * option string) :=
  let input_prompt := default "" (json_message req) in
  if negb (Py.truthy input_prompt) then
    ret ({| status := 400; body := ErrorBody "No message provided" |},
         session_cookie req)
  else
    let '(session_id, cookie) := resolve_session req env in
    do chat_history <- load_memory_variables session_id;
    do _ <- add_user_message session_id input_prompt;
    do doc_response <- retrieve_documents input_prompt env;
    match doc_response with
    | Answered answer response_time context =>
        ret ({| status := 200;
                body := ChatBody answer response_time context
                                 (content <$> chat_history) |}, cookie)
    | Retrieved context context_str response_time =>
        do answer <- get_groq_response input_prompt context_str chat_history;
        do _ <- add_ai_message session_id answer;
        do updated_chat_history <- load_memory_variables session_id;
        ret ({| status := 200;
                body := ChatBody answer response_time context
                                 (content <$> updated_chat_history) |},
             cookie)
    end.

End App.

(** ** Notions used in the statements *)

(** The splitter in use once [initialize_components] has run. *)
Definition splitter_of (s : State) : TextSplitter :=
  default {| chunk_size := 1000; chunk_overlap := 200 |} (text_splitter s).

(** The state [initialize_components] leaves: only the two component
    globals can differ. *)
Definition initialized (s : State) : State :=
  set_text_splitter (Some (splitter_of s))
    (set_embeddings
       (Some (default {| model := "models/embedding-001" |} (embeddings s))) s).

(** The chunk texts a [retrieve_documents] result carries. *)
Definition response_context (r : DocResponse) : list string :=
  match r with
  | Answered _ _ context => context
  | Retrieved context _ _ => context
  end.

(** The turns recorded for a session, oldest first. *)
Definition history (s : State) (session_id : string) : list Message :=
  default [] (redis s !! session_id).

(** The state after one more message in a session. *)
Definition push (session_id : string) (msg : Message) (s : State) : State :=
  set_redis (<[session_id := history s session_id ++ [msg]]> (redis s)) s.

(** The process started anew: the module globals are [None] again, while the
    upload folder, the persist directory and Redis are as they were left. *)
Definition restart (s : State) : State :=
  {| uploads := uploads s; chroma_db := chroma_db s;
     document_store := None; embeddings := None; text_splitter := None;
     redis := redis s; groq_calls := groq_calls s |}.

(** The collection a query is answered from. *)
Definition served_collection (s : State) : list (Document * Vector) :=
  match document_store s with
  | Some store => _collection store
  | None => []
  end.

(** A request to one of the two endpoints. *)
Inductive Request :=
| ChatRequested (req : ChatRequest) (env : ChatEnv)
| UploadRequested (files : list FileStorage).

Section Notions.
Context `{Collaborators}.

(** What loading one directory entry gives: nothing for a suffix that is
    neither [.pdf] nor [.txt], else the result of the matching loader. *)
Definition loader_result (directory_path name bytes : string)
  : option (outcome (list Document)) :=
  let file_path := directory_path +:+ "/" +:+ name in
  if decide (Py.lower (Py.suffix name) = ".pdf")
  then Some (PyPDFLoader_load file_path bytes)
  else if decide (Py.lower (Py.suffix name) = ".txt")
  then Some (TextLoader_load file_path bytes)
  else None.

(** The folder after the saving loop of [upload_files] has gone through
    [files], starting from [folder]. *)
Fixpoint stored (files : list FileStorage) (folder : gmap string string)
  : gmap string string :=
  match files with
  | [] => folder
  | file :: rest =>
      if Py.truthy (filename file) && allowed_file (filename file)
      then stored rest
             (<[secure_filename (filename file) := stream file]> folder)
      else stored rest folder
  end.

(** The chunks a batch of submitted files puts into the index: what the
    loaders and the splitter make of the files the batch stores in an empty
    folder. *)
Definition batch_chunks (ts : TextSplitter) (files : list FileStorage)
  : outcome (list Document) :=
  match load_entries UPLOAD_FOLDER (listdir (stored files ∅)) [] with
  | Returns documents => Returns (split_documents ts documents)
  | Raises e => Raises e
  end.

(** The answer [get_groq_response] gives for a prompt. *)
Definition answer_for (content : string) : string :=
  match groq_create content with
  | Returns completion => Py.strip completion
  | Raises e => "Error generating response: " +:+ e
  end.

(** The process state after a request has been handled, whether the handler
    returned or raised. *)
Definition handle (r : Request) (s : State) : State :=
  match r with
  | ChatRequested req env => snd (chat req env s)
  | UploadRequested files => snd (upload_files files s)
  end.

(** The process state after a sequence of requests. *)
Definition serve (requests : list Request) (s : State) : State :=
  foldl (fun s r => handle r s) s requests.

End Notions.

(** ** Test doubles for the collaborators

    Concrete collaborators on which the application can be run: a text
    loader that rejects a file holding the byte 0xFF (not UTF-8), a PDF
    loader that rejects a file without the [%PDF] magic, a Chroma library
    that builds once per process, an embedder with a size quota, a
    completion service that can be switched off, a ranking that keeps
    insertion order. *)

Module Stub.

Fixpoint has_byte (a : ascii) (s : string) : bool :=
  match s with
  | "" => false
  | String b s' => Ascii.eqb a b || has_byte a s'
  end.

Definition text_load (path bytes : string) : outcome (list Document) :=
  if has_byte "255"%char bytes
  then Raises ("Error loading " +:+ path)
  else Returns [{| page_content := bytes; metadata_source := path |}].

Definition pdf_load (path bytes : string) : outcome (list Document) :=
  match bytes with
  | String "%" (String "P" (String "D" (String "F" text))) =>
      Returns [{| page_content := text; metadata_source := path |}]
  | _ => Raises ("Invalid PDF " +:+ path)
  end.

(** An embedder that accepts texts of at most [quota] characters. *)
Definition embed (quota : nat) (text : string) : outcome Vector :=
  if String.length text <=? quota
  then Returns [Z.of_nat (String.length text)]
  else Raises "429 embedding quota exceeded".

(** The Chroma library: it refuses to build in a process that already holds
    a Chroma object on the directory, and it refuses an empty batch. *)
Definition open_collection (held : option Chroma) (documents : list Document)
  : outcome unit :=
  match held, documents with
  | Some _, _ => Raises "attempt to write a readonly database"
  | None, [] => Raises "Expected IDs to be a non-empty list, got 0 IDs"
  | None, _ :: _ => Returns tt
  end.

Definition completion (up : bool) (content : string) : outcome string :=
  if up then Returns (" The sky is blue. " +:+ Py.LF)
  else Raises "Connection error.".

Definition collaborators (quota : nat) (groq_up : bool) : Collaborators :=
  {| listdir := map_to_list;
     listdir_entries := fun _ => Permutation_refl _;
     PyPDFLoader_load := pdf_load;
     TextLoader_load := text_load;
     chroma_open := open_collection;
     embed_document := embed quota;
     embed_query := embed quota;
     rank := fun _ collection => seq 0 (length collection);
     groq_create := completion groq_up;
     secure_filename := fun name => name |}.

(** Everything reachable. *)
Definition healthy : Collaborators := collaborators 100 true.

(** The embedder refuses texts of more than ten characters. *)
Definition over_quota : Collaborators := collaborators 10 true.

(** The completion service is unreachable. *)
Definition groq_down : Collaborators := collaborators 100 false.

Definition env : ChatEnv :=
  {| os_urandom := fun n => replicate n Byte.x2a;
     process_time_start := 10; process_time_end := 13 |}.

Definition sky : FileStorage :=
  {| filename := "sky.txt"; stream := "The sky is blue." |}.

Definition grass : FileStorage :=
  {| filename := "grass.txt"; stream := "Grass is green." |}.

Definition broken_pdf : FileStorage :=
  {| filename := "scan.pdf"; stream := "not a pdf" |}.

Definition picture : FileStorage :=
  {| filename := "cat.png"; stream := "PNG" |}.

(** The state component of running [c] from [s]. *)
Definition after {A} (c : M A) (s : State) : State := snd (c s).

(** The process after a first successful upload of [sky]. *)
Definition indexed_state : State :=
  after (upload_files (H := healthy) [sky]) initial_state.

(** The process with a sky index and a folder that holds [folder]. *)
Definition indexed_with (folder : gmap string string) : State :=
  set_uploads folder indexed_state.

(** Sky index in place, [grass.txt] waiting in the folder. *)
Definition grass_pending : State :=
  indexed_with {[ "grass.txt" := "Grass is green." ]}.

(** Sky index in place, an unreadable PDF next to [sky.txt] in the folder. *)
Definition scan_pending : State :=
  indexed_with
    {[ "scan.pdf" := "not a pdf"; "sky.txt" := "The sky is blue." ]}.

(** Sky index in place, only a picture in the folder. *)
Definition picture_pending : State :=
  indexed_with {[ "cat.png" := "PNG" ]}.

Definition grass_document : Document :=
  {| page_content := "Grass is green.";
     metadata_source := "uploads/grass.txt" |}.

Definition sky_chunk : Document * Vector :=
  ({| page_content := "The sky is blue.";
      metadata_source := "uploads/sky.txt" |}, [16%Z]).

(** The Chroma object of the sky index. *)
Definition sky_store : Chroma :=
  {| persist_directory := "./chroma_db";
     collection_name := "rag_collection";
     _collection := [sky_chunk] |}.

(** A PDF without pages loads as no document. *)
Definition pdf_pages (path bytes : string) : outcome (list Document) :=
  match bytes with
  | "%PDF" => Returns []
  | _ => pdf_load path bytes
  end.

(** As [healthy], with the page-wise PDF loader. *)
Definition paged : Collaborators :=
  {| listdir := map_to_list;
     listdir_entries := fun _ => Permutation_refl _;
     PyPDFLoader_load := pdf_pages;
     TextLoader_load := text_load;
     chroma_open := open_collection;
     embed_document := embed 100;
     embed_query := embed 100;
     rank := fun _ collection => seq 0 (length collection);
     groq_create := completion true;
     secure_filename := fun name => name |}.

End Stub.

(** ** Reading the prompt

    The rendering of the history that the prompt is compared with. *)

(** One prior turn as the prompt shows it: role label, colon, text. *)
Definition rendered_turn (msg : Message) : string :=
  match type msg with human => "User" | ai => "AI" end
  +:+ ": " +:+ content msg.

(** The turns, oldest first, one per line. *)
Definition rendered_history (chat_history : list Message) : string :=
  foldr (fun msg rest => rendered_turn msg +:+ Py.LF +:+ rest) ""
        chat_history.

(** ** Status endpoint ([status], lines 284-297) *)

Record StatusBody := {
  documents_loaded : bool;
  redis_connected : bool;
  upload_folder : string;
  allowed_extensions : list string
}.

Module Health.

(** [GET /status]; [ping] is what [redis_client.ping()] does when called and
    [listed] the order in which [list(ALLOWED_EXTENSIONS)] goes through the
    set. *)
Definition status (ping : outcome bool) (listed : list string)
  : M StatusBody :=
  do redis_ok <- try_except (lift ping) (fun _ => ret false);
  do s <- get;
  ret {| documents_loaded :=
           match document_store s with Some _ => true | None => false end;
         redis_connected := redis_ok;
         upload_folder := UPLOAD_FOLDER;
         allowed_extensions := listed |}.

End Health.

(** ** Further notions used in the statements *)

(** ['.' in s] *)
Fixpoint contains_dot (s : string) : bool :=
  match s with
  | "" => false
  | String a s' => Ascii.eqb a "." || contains_dot s'
  end.

(** Every character is in the ASCII range. *)
Fixpoint is_ascii (s : string) : bool :=
  match s with
  | "" => true
  | String a s' => (N_of_ascii a <? 128)%N && is_ascii s'
  end.

(** The test [upload_files] applies to a submitted file before saving it. *)
Definition accepted (file : FileStorage) : bool :=
  Py.truthy (filename file) && allowed_file (filename file).

(** Value of a hexadecimal digit in lower case. *)
Definition unhex_digit (a : ascii) : option N :=
  let n := N_of_ascii a in
  if ((48 <=? n) && (n <=? 57))%N then Some (n - 48)%N
  else if ((97 <=? n) && (n <=? 102))%N then Some (n - 87)%N
  else None.

(** [bytes.fromhex], the inverse of [Py.hex]. *)
Fixpoint unhex (s : string) : option (list Byte.byte) :=
  match s with
  | "" => Some []
  | String a (String b rest) =>
      match unhex_digit a, unhex_digit b, unhex rest with
      | Some hi, Some lo, Some bs =>
          match Byte.of_N (16 * hi + lo) with
          | Some byte => Some (byte :: bs)
          | None => None
          end
      | _, _, _ => None
      end
  | String _ "" => None
  end.

(** Every assistant turn directly follows a user turn. *)
Definition answers_follow_questions (turns : list Message) : Prop :=
  forall i a,
    turns !! i = Some a -> type a = ai ->
    exists j u, i = S j /\ turns !! j = Some u /\ type u = human.

Section FurtherNotions.
Context `{Collaborators}.

(** The names [upload_files] reports: the secure names of the accepted
    files, in submission order. *)
Definition saved_names (files : list FileStorage) : list string :=
  (fun file => secure_filename (filename file)) <$> filter accepted files.

(** The documents of the readable entries, in listing order. *)
Definition readable_documents (directory_path : string)
    (entries : list (string * string)) : list Document :=
  concat
    (omap (fun entry =>
             match loader_result directory_path entry.1 entry.2 with
             | Some (Returns docs) => Some docs
             | _ => None
             end) entries).

End FurtherNotions.

(** * Properties *)

(** ** Python helpers on examples *)

Example lower_PDF : Py.lower "Pdf" = "pdf".
Proof. reflexivity. Qed.

Example rsplit_two_dots : Py.rsplit_dot "a.b.TXT" = Some ("a.b", "TXT").
Proof. reflexivity. Qed.

Example suffix_hidden : Py.suffix ".txt" = "" /\ Py.suffix "notes.txt" = ".txt".
Proof. split; reflexivity. Qed.

Example strip_answer : Py.strip (" blue. " +:+ Py.LF) = "blue.".
Proof. reflexivity. Qed.

Example hex_two_bytes : Py.hex [Byte.x0a; Byte.xff] = "0aff".
Proof. reflexivity. Qed.

Example allowed_file_examples :
  allowed_file "report.PDF" = true /\ allowed_file "notes.txt" = true /\
  allowed_file "image.png" = false /\ allowed_file "README" = false /\
  allowed_file "archive.txt.gz" = false.
Proof. repeat split; reflexivity. Qed.

(** ** Chunker *)

Module ChunkerFacts.
Import Chunker.

Section Windows.
Context {A : Type}.
Variables (L O : nat).
Local Abbreviation windows := (windows (A:=A) L O).
Local Abbreviation chunk := (chunk (A:=A) L O).
Local Abbreviation strip_overlaps := (strip_overlaps (A:=A) O).
Local Abbreviation rejoin := (rejoin (A:=A) O).

Implicit Types (t c : list A) (cs : list (list A)).

Hypothesis overlap_lt_size : O < L.

Lemma windows_short fuel t :
  length t < L -> windows (S fuel) t = match t with [] => [] | _ => [t] end.
Proof.
  intros Hlt. simpl. apply Nat.ltb_lt in Hlt. rewrite Hlt. reflexivity.
Qed.

Lemma windows_long fuel t :
  L <= length t ->
  windows (S fuel) t = take L t :: windows fuel (drop (L - O) t).
Proof.
  intros Hge. simpl. apply Nat.ltb_ge in Hge. rewrite Hge. reflexivity.
Qed.

Lemma drop_step_length t :
  L <= length t -> length (drop (L - O) t) < length t.
Proof. intros Hge. rewrite length_drop. lia. Qed.

Lemma drop_step_overlap t :
  L <= length t -> O <= length (drop (L - O) t).
Proof. intros Hge. rewrite length_drop. lia. Qed.

(** More fuel than text length is enough: the result no longer depends on
    the fuel. *)
Lemma windows_fuel_irrelevant fuel fuel' t :
  length t < fuel -> length t < fuel' -> windows fuel t = windows fuel' t.
Proof.
  revert fuel' t. induction fuel as [|fuel IH]; intros fuel' t Hf Hf'; [lia|].
  destruct fuel' as [|fuel']; [lia|].
  destruct (Nat.lt_ge_cases (length t) L) as [Hlt|Hge].
  - rewrite !windows_short by assumption. reflexivity.
  - rewrite !windows_long by assumption. f_equal.
    pose proof (drop_step_length t Hge). apply IH; lia.
Qed.

Lemma chunk_long t :
  L <= length t -> chunk t = take L t :: chunk (drop (L - O) t).
Proof.
  intros Hge. unfold chunk. rewrite windows_long by assumption. f_equal.
  pose proof (drop_step_length t Hge). apply windows_fuel_irrelevant; lia.
Qed.

Lemma chunk_short t :
  length t < L -> chunk t = match t with [] => [] | _ => [t] end.
Proof. intros Hlt. unfold chunk. apply windows_short. assumption. Qed.

(** Induction along the windows of a text. *)
Lemma chunk_ind (P : list A -> Prop) :
  (forall t, length t < L -> P t) ->
  (forall t, L <= length t -> P (drop (L - O) t) -> P t) ->
  forall t, P t.
Proof.
  intros Hshort Hlong t.
  remember (length t) as n eqn:Hn. revert t Hn.
  induction n as [n IH] using lt_wf_ind. intros t ->.
  destruct (Nat.lt_ge_cases (length t) L) as [Hlt|Hge].
  - apply Hshort. assumption.
  - apply Hlong; [assumption|].
    apply (IH (length (drop (L - O) t))); [|reflexivity].
    apply drop_step_length. assumption.
Qed.

(** The [i]-th chunk is the window of size [L] at offset [i * (L - O)]. *)
Lemma chunk_lookup_window t :
  forall i c, chunk t !! i = Some c -> c = take L (drop (i * (L - O)) t).
Proof.
  induction t as [t Hlt|t Hge IH] using chunk_ind; intros i c.
  - rewrite chunk_short by assumption. destruct t as [|a t]; [done|].
    destruct i as [|i]; [|done]. intros [= <-]. simpl drop.
    rewrite take_ge; [reflexivity|lia].
  - rewrite chunk_long by assumption. destruct i as [|i]; simpl.
    + intros [= <-]. reflexivity.
    + intros Hc. apply IH in Hc. rewrite Hc, drop_drop. reflexivity.
Qed.

(** Every chunk that has a successor is a full window. *)
Lemma chunk_full_length t :
  forall i c, chunk t !! i = Some c -> is_Some (chunk t !! S i) ->
              length c = L.
Proof.
  induction t as [t Hlt|t Hge IH] using chunk_ind; intros i c.
  - rewrite chunk_short by assumption. destruct t as [|a t]; [done|].
    intros _ [c' Hc']. done.
  - rewrite chunk_long by assumption. destruct i as [|i]; simpl.
    + intros [= <-] _. rewrite length_take. lia.
    + apply IH.
Qed.

Lemma chunk_head_overlap t c :
  chunk t !! 0 = Some c -> take O c = take O t.
Proof.
  destruct (Nat.lt_ge_cases (length t) L) as [Hlt|Hge].
  - rewrite chunk_short by assumption. destruct t as [|a t]; [done|].
    intros [= <-]. reflexivity.
  - rewrite chunk_long by assumption. intros [= <-].
    rewrite take_take. f_equal. lia.
Qed.

(** Consecutive chunks: the last [O] units of one are the first [O] units
    of the next. *)
Lemma chunk_consecutive_overlap t :
  forall i c c', chunk t !! i = Some c -> chunk t !! S i = Some c' ->
                 drop (L - O) c = take O c' /\ length (take O c') = O.
Proof.
  induction t as [t Hlt|t Hge IH] using chunk_ind; intros i c c'.
  - rewrite chunk_short by assumption. destruct t as [|a t]; done.
  - rewrite chunk_long by assumption. destruct i as [|i]; simpl.
    + intros [= <-] Hc'. apply chunk_head_overlap in Hc'. rewrite Hc'.
      split.
      * rewrite take_drop_commute. do 2 f_equal. lia.
      * pose proof (drop_step_overlap t Hge). rewrite length_take. lia.
    + apply IH.
Qed.

Lemma strip_overlaps_chunk t : strip_overlaps (chunk t) = drop O t.
Proof.
  unfold strip_overlaps.
  induction t as [t Hlt|t Hge IH] using chunk_ind.
  - rewrite chunk_short by assumption. destruct t as [|a t]; simpl.
    + rewrite drop_nil. reflexivity.
    + rewrite app_nil_r. reflexivity.
  - rewrite chunk_long by assumption. simpl. rewrite IH, drop_drop.
    replace (L - O + O) with L by lia.
    apply drop_take_drop. lia.
Qed.

Lemma rejoin_chunk t : rejoin (chunk t) = t.
Proof.
  destruct (Nat.lt_ge_cases (length t) L) as [Hlt|Hge].
  - rewrite chunk_short by assumption. destruct t as [|a t]; simpl.
    + reflexivity.
    + unfold strip_overlaps. simpl. rewrite app_nil_r. reflexivity.
  - rewrite chunk_long by assumption. simpl.
    rewrite strip_overlaps_chunk, drop_drop.
    replace (L - O + O) with L by lia. apply take_drop.
Qed.

Lemma chunk_nil : chunk [] = [].
Proof. apply chunk_short. simpl. lia. Qed.

End Windows.

End ChunkerFacts.

Example stub_first_upload :
  Stub.indexed_state =
    {| uploads := {[ "sky.txt" := "The sky is blue." ]};
       chroma_db := Some [Stub.sky_chunk];
       document_store := Some Stub.sky_store;
       embeddings := Some {| model := "models/embedding-001" |};
       text_splitter := Some {| chunk_size := 1000; chunk_overlap := 200 |};
       redis := ∅; groq_calls := [] |}.
Proof. vm_compute. reflexivity. Qed.

(** ** Chunking with the configured splitter *)

Example chunk_small_windows :
  Chunker.chunk 5 2 [1; 2; 3; 4; 5; 6; 7; 8; 9; 10; 11; 12] =
    [[1; 2; 3; 4; 5]; [4; 5; 6; 7; 8]; [7; 8; 9; 10; 11]; [10; 11; 12]].
Proof. reflexivity. Qed.

Example chunk_exact_window :
  Chunker.chunk 5 2 [1; 2; 3; 4; 5] = [[1; 2; 3; 4; 5]; [4; 5]] /\
  Chunker.rejoin 2 (Chunker.chunk 5 2 [1; 2; 3; 4; 5]) = [1; 2; 3; 4; 5].
Proof. split; reflexivity. Qed.

Example configured_splitter :
  text_splitter (snd (initialize_components initial_state))
    = Some {| chunk_size := 1000; chunk_overlap := 200 |}.
Proof. reflexivity. Qed.

Example split_documents_per_document :
  split_documents {| chunk_size := 5; chunk_overlap := 2 |}
    [ {| page_content := "abcdefgh"; metadata_source := "uploads/a.txt" |};
      {| page_content := "xyz"; metadata_source := "uploads/b.txt" |} ]
  = [ {| page_content := "abcde"; metadata_source := "uploads/a.txt" |};
      {| page_content := "defgh"; metadata_source := "uploads/a.txt" |};
      {| page_content := "gh"; metadata_source := "uploads/a.txt" |};
      {| page_content := "xyz"; metadata_source := "uploads/b.txt" |} ].
Proof. reflexivity. Qed.

(** C1.  With the parameters of [initialize_components] (chunk size 1000,
    overlap 200) and for every text [T]: the [i]-th chunk is the window of
    1000 units at offset [i * 800]; every chunk that is not the last has
    length exactly 1000; the last 200 units of a chunk are the first 200
    units of its successor; joining the chunks after dropping the leading 200
    units of every chunk but the first gives back [T]; the empty text has no
    chunk. *)
Theorem chunk_sliding_window_roundtrip {A : Type} (T : list A) :
  (forall i c, Chunker.chunk 1000 200 T !! i = Some c ->
               c = take 1000 (drop (i * (1000 - 200)) T)) /\
  (forall i c, Chunker.chunk 1000 200 T !! i = Some c ->
               is_Some (Chunker.chunk 1000 200 T !! S i) ->
               length c = 1000) /\
  (forall i c c', Chunker.chunk 1000 200 T !! i = Some c ->
                  Chunker.chunk 1000 200 T !! S i = Some c' ->
                  drop (1000 - 200) c = take 200 c' /\
                  length (take 200 c') = 200) /\
  Chunker.rejoin 200 (Chunker.chunk 1000 200 T) = T /\
  Chunker.chunk 1000 200 (@nil A) = [].
Proof.
  assert (Hlt : 200 < 1000) by lia.
  split; [|split; [|split; [|split]]].
  - apply ChunkerFacts.chunk_lookup_window. exact Hlt.
  - apply ChunkerFacts.chunk_full_length. exact Hlt.
  - apply ChunkerFacts.chunk_consecutive_overlap. exact Hlt.
  - apply ChunkerFacts.rejoin_chunk. exact Hlt.
  - apply ChunkerFacts.chunk_nil. exact Hlt.
Qed.

(** ** Prompt assembly *)

Lemma string_app_assoc (s1 s2 s3 : string) :
  (s1 +:+ s2) +:+ s3 = s1 +:+ (s2 +:+ s3).
Proof.
  induction s1 as [|a s1 IH]; [reflexivity|].
  change (String a ((s1 +:+ s2) +:+ s3) = String a (s1 +:+ (s2 +:+ s3))).
  rewrite IH. reflexivity.
Qed.

Lemma string_app_nil_r (s : string) : s +:+ "" = s.
Proof.
  induction s as [|a s IH]; [reflexivity|].
  change (String a (s +:+ "") = String a s). rewrite IH. reflexivity.
Qed.

Lemma history_text_from (acc : string) (chat_history : list Message) :
  fold_left
    (fun acc msg => acc +:+ (sender msg +:+ ": " +:+ content msg +:+ Py.LF))
    chat_history acc
  = acc +:+ rendered_history chat_history.
Proof.
  revert acc. induction chat_history as [|msg rest IH]; intros acc.
  - simpl. rewrite string_app_nil_r. reflexivity.
  - simpl. rewrite IH, string_app_assoc. f_equal.
    unfold rendered_turn, sender. rewrite !string_app_assoc. reflexivity.
Qed.

Lemma history_text_rendered (chat_history : list Message) :
  history_text chat_history = rendered_history chat_history.
Proof. unfold history_text. rewrite history_text_from. reflexivity. Qed.

Example formatted_prompt_two_turns :
  formatted_prompt "And grass?" "Grass is green."
    [ {| type := human; content := "What color is the sky?" |};
      {| type := ai; content := "Blue." |} ]
  = Py.LF +:+
    "User: What color is the sky?" +:+ Py.LF +:+
    "AI: Blue." +:+ Py.LF +:+
    Py.LF +:+
    "Answer the question based on the provided context only." +:+ Py.LF +:+
    "Please provide the most accurate response based on the question." +:+
    Py.LF +:+ Py.LF +:+
    "Context:" +:+ Py.LF +:+
    "Grass is green." +:+ Py.LF +:+ Py.LF +:+
    "Question: And grass?" +:+ Py.LF +:+ Py.LF +:+
    "Answer:" +:+ Py.LF.
Proof. reflexivity. Qed.

(** C8.  For every query, context and history the prompt sent to the model
    is, in this order: the prior turns, oldest first, each rendered as
    [<role-label>: <text>] on a line of its own, with label [User] for a
    human message and [AI] for an assistant message; the fixed instruction
    block that restricts the answer to the provided context; the context
    block; the current query. *)
Theorem formatted_prompt_order (query context : string)
    (chat_history : list Message) :
  formatted_prompt query context chat_history =
    Py.LF +:+ rendered_history chat_history +:+ Py.LF +:+
    "Answer the question based on the provided context only." +:+ Py.LF +:+
    "Please provide the most accurate response based on the question." +:+
    Py.LF +:+ Py.LF +:+
    "Context:" +:+ Py.LF +:+ context +:+ Py.LF +:+ Py.LF +:+
    "Question: " +:+ query +:+ Py.LF +:+ Py.LF +:+ "Answer:" +:+ Py.LF
  /\ (forall older newer,
        rendered_history (older ++ newer) =
          rendered_history older +:+ rendered_history newer)
  /\ (forall text,
        rendered_turn {| type := human; content := text |} = "User: " +:+ text)
  /\ (forall text,
        rendered_turn {| type := ai; content := text |} = "AI: " +:+ text).
Proof.
  split; [|split; [|split]].
  - unfold formatted_prompt. rewrite history_text_rendered. reflexivity.
  - intros older newer. induction older as [|msg older IH]; [reflexivity|].
    simpl. rewrite IH, !string_app_assoc. reflexivity.
  - reflexivity.
  - reflexivity.
Qed.

(** ** Ingestion *)

Section Ingestion.
Context `{Collaborators}.

(** A listing has exactly the files of the folder. *)
Lemma elem_of_listdir (folder : gmap string string) (name bytes : string) :
  (name, bytes) ∈ listdir folder <-> folder !! name = Some bytes.
Proof. rewrite (listdir_entries folder). apply elem_of_map_to_list. Qed.

Lemma initialize_components_run (s : State) :
  initialize_components s = (Returns tt, initialized s).
Proof.
  destruct s as [u c d e t r g].
  destruct e as [e|], t as [t|]; reflexivity.
Qed.

(** [process_documents], branch by branch. *)
Lemma process_documents_run (s : State) :
  process_documents s =
    match load_entries UPLOAD_FOLDER (listdir (uploads s)) [] with
    | Raises e => (Raises e, initialized s)
    | Returns [] => (Returns false, initialized s)
    | Returns (d :: ds) =>
        match chroma_open (document_store s)
                (split_documents (splitter_of s) (d :: ds)) with
        | Raises e => (Raises e, set_chroma_db None (initialized s))
        | Returns _ =>
            match embed_all (split_documents (splitter_of s) (d :: ds)) with
            | Raises e => (Raises e, set_chroma_db None (initialized s))
            | Returns indexed =>
                (Returns true,
                 set_document_store
                   (Some {| persist_directory := "./chroma_db";
                            collection_name := "rag_collection";
                            _collection := indexed |})
                   (set_chroma_db (Some indexed) (initialized s)))
            end
        end
    end.
Proof.
  unfold process_documents, bind at 1. rewrite initialize_components_run.
  unfold bind at 1, load_documents_from_directory, bind at 1, get, lift.
  change (uploads (initialized s)) with (uploads s).
  destruct (load_entries _ _ _) as [[|d ds]|e]; [reflexivity| |reflexivity].
  unfold bind at 1.
  change (text_splitter (initialized s)) with (Some (splitter_of s)).
  cbv beta iota.
  unfold Chroma_from_documents, bind, modify, lift, get, ret.
  change (chroma_db (initialized s)) with (chroma_db s).
  destruct s as [u c d0 e0 t r g]. destruct c as [old|]; simpl;
    destruct (chroma_open _ _) as [[]|e]; try reflexivity;
    destruct (embed_all _) as [indexed|e]; reflexivity.
Qed.

Lemma initialized_index (s : State) :
  uploads (initialized s) = uploads s /\
  chroma_db (initialized s) = chroma_db s /\
  document_store (initialized s) = document_store s /\
  redis (initialized s) = redis s /\
  groq_calls (initialized s) = groq_calls s.
Proof. repeat split; reflexivity. Qed.

(** A query sees the Chroma object bound to [document_store] and nothing
    else. *)
Lemma retrieve_documents_index_only (s1 s2 : State) q env :
  document_store s1 = document_store s2 ->
  fst (retrieve_documents q env s1) = fst (retrieve_documents q env s2).
Proof.
  intros Hd.
  unfold retrieve_documents, bind at 1, get.
  unfold bind at 2. rewrite Hd.
  destruct (document_store s2) as [store|]; [|reflexivity].
  unfold try_except, bind, retriever_invoke, bind, lift, ret.
  destruct (embed_query q); reflexivity.
Qed.

Lemma load_documents_from_directory_run (s : State) :
  load_documents_from_directory UPLOAD_FOLDER s =
    (load_entries UPLOAD_FOLDER (listdir (uploads s)) [], s).
Proof. reflexivity. Qed.

(** C3.  When loading the upload folder yields no document,
    [process_documents] returns [False] and neither the global
    [document_store] nor the persisted [chroma_db] collection changes; every
    query is answered from the state after exactly as from the state
    before. *)
Theorem process_documents_no_documents (s : State) :
  fst (load_documents_from_directory UPLOAD_FOLDER s) = Returns [] ->
  exists s',
    process_documents s = (Returns false, s') /\
    document_store s' = document_store s /\
    chroma_db s' = chroma_db s /\
    forall q env,
      fst (retrieve_documents q env s') = fst (retrieve_documents q env s).
Proof.
  rewrite load_documents_from_directory_run. simpl fst. intros Hload.
  exists (initialized s). rewrite process_documents_run, Hload.
  repeat split. intros q env. apply retrieve_documents_index_only; reflexivity.
Qed.

Lemma load_entries_step directory_path name bytes rest documents :
  load_entries directory_path ((name, bytes) :: rest) documents =
    match loader_result directory_path name bytes with
    | None => load_entries directory_path rest documents
    | Some (Returns docs) =>
        load_entries directory_path rest (documents ++ docs)
    | Some (Raises e) => Raises e
    end.
Proof.
  unfold loader_result. simpl.
  destruct (decide _); [reflexivity|]. destruct (decide _); reflexivity.
Qed.

(** One unreadable entry makes the whole loop raise, with the exception of
    an unreadable entry. *)
Lemma load_entries_raises directory_path entries :
  forall documents name bytes e,
    (name, bytes) ∈ entries ->
    loader_result directory_path name bytes = Some (Raises e) ->
    exists name' bytes' e',
      (name', bytes') ∈ entries /\
      loader_result directory_path name' bytes' = Some (Raises e') /\
      load_entries directory_path entries documents = Raises e'.
Proof.
  induction entries as [|[n b] rest IH]; intros documents name bytes e Hin Hbad.
  - inversion Hin.
  - rewrite load_entries_step.
    destruct (loader_result directory_path n b) as [[docs|e0]|] eqn:Hnb.
    + apply elem_of_cons in Hin as [Heq|Hin]; [congruence|].
      destruct (IH (documents ++ docs) name bytes e Hin Hbad)
        as (n' & b' & e' & Hin' & Hbad' & Hrun).
      exists n', b', e'. split; [right; exact Hin'|]. split; assumption.
    + exists n, b, e0. split; [left|]. split; [assumption|reflexivity].
    + apply elem_of_cons in Hin as [Heq|Hin]; [congruence|].
      destruct (IH documents name bytes e Hin Hbad)
        as (n' & b' & e' & Hin' & Hbad' & Hrun).
      exists n', b', e'. split; [right; exact Hin'|]. split; assumption.
Qed.

(** When every entry is readable, each entry's documents are in the
    result. *)
Lemma load_entries_returns directory_path entries :
  forall documents result,
    load_entries directory_path entries documents = Returns result ->
    (forall d, d ∈ documents -> d ∈ result) /\
    forall name bytes docs,
      (name, bytes) ∈ entries ->
      loader_result directory_path name bytes = Some (Returns docs) ->
      forall d, d ∈ docs -> d ∈ result.
Proof.
  induction entries as [|[n b] rest IH]; intros documents result.
  - simpl. intros [= <-]. split; [auto|]. intros ??? Hin. inversion Hin.
  - rewrite load_entries_step.
    destruct (loader_result directory_path n b) as [[docs|e0]|] eqn:Hnb;
      [|discriminate|]; intros Hrun; destruct (IH _ _ Hrun) as [Hacc Hrest].
    + split.
      * intros d Hd. apply Hacc, elem_of_app. left. exact Hd.
      * intros name bytes docs' Hin Hok d Hd.
        apply elem_of_cons in Hin as [Heq|Hin].
        -- injection Heq as -> ->. rewrite Hnb in Hok. injection Hok as <-.
           apply Hacc, elem_of_app. right. exact Hd.
        -- eapply Hrest; eassumption.
    + split; [exact Hacc|].
      intros name bytes docs' Hin Hok d Hd.
      apply elem_of_cons in Hin as [Heq|Hin].
      * injection Heq as -> ->. congruence.
      * eapply Hrest; eassumption.
Qed.

(** C6, as the code has it.  When a [.pdf] or [.txt] file of the upload
    folder is unreadable, [load_documents_from_directory] raises the
    exception of an unreadable file and returns no document of any sibling;
    [process_documents] raises the same exception and leaves both
    [document_store] and [chroma_db] as they were. *)
Theorem unreadable_file_aborts_batch (s : State) (name bytes e : string) :
  uploads s !! name = Some bytes ->
  loader_result UPLOAD_FOLDER name bytes = Some (Raises e) ->
  exists name' bytes' e' s',
    uploads s !! name' = Some bytes' /\
    loader_result UPLOAD_FOLDER name' bytes' = Some (Raises e') /\
    fst (load_documents_from_directory UPLOAD_FOLDER s) = Raises e' /\
    process_documents s = (Raises e', s') /\
    document_store s' = document_store s /\
    chroma_db s' = chroma_db s.
Proof.
  intros Hfile Hbad.
  apply elem_of_listdir in Hfile.
  destruct (load_entries_raises UPLOAD_FOLDER _ [] name bytes e Hfile Hbad)
    as (n' & b' & e' & Hin' & Hbad' & Hrun).
  exists n', b', e', (initialized s).
  split; [apply elem_of_listdir; exact Hin'|].
  split; [exact Hbad'|].
  rewrite load_documents_from_directory_run, process_documents_run, Hrun.
  repeat split.
Qed.

Lemma embed_all_fst (documents : list Document) :
  forall indexed,
    embed_all documents = Returns indexed -> fst <$> indexed = documents.
Proof.
  induction documents as [|d rest IH]; intros indexed; simpl.
  - intros [= <-]. reflexivity.
  - destruct (embed_document (page_content d)) as [v|e]; [|discriminate].
    destruct (embed_all rest) as [r|e]; [|discriminate].
    intros [= <-]. simpl. f_equal. apply IH. reflexivity.
Qed.

(** C2, as the code has it.  Over a non-empty document set the persist
    directory of the previous generation is removed before the new index is
    built, and the global [document_store] is rebound only after the build.
    If the build raises, in the library or in the embedder,
    [process_documents] raises too: nothing is left under the persist
    directory, while [document_store] is still the previous Chroma object and
    every query is answered as before the attempt.  If the build succeeds,
    the persist directory and the new Chroma object hold exactly the chunks
    of the loaded documents. *)
Theorem rebuild_removes_collection_before_build (s : State) d ds :
  fst (load_documents_from_directory UPLOAD_FOLDER s) = Returns (d :: ds) ->
  (forall e,
     chroma_open (document_store s)
       (split_documents (splitter_of s) (d :: ds)) = Raises e \/
     (chroma_open (document_store s)
        (split_documents (splitter_of s) (d :: ds)) = Returns tt /\
      embed_all (split_documents (splitter_of s) (d :: ds)) = Raises e) ->
     exists s',
       process_documents s = (Raises e, s') /\
       chroma_db s' = None /\
       document_store s' = document_store s /\
       forall q env,
         fst (retrieve_documents q env s') =
         fst (retrieve_documents q env s)) /\
  (forall indexed,
     chroma_open (document_store s)
       (split_documents (splitter_of s) (d :: ds)) = Returns tt ->
     embed_all (split_documents (splitter_of s) (d :: ds)) = Returns indexed ->
     exists s',
       process_documents s = (Returns true, s') /\
       chroma_db s' = Some indexed /\
       document_store s' =
         Some {| persist_directory := "./chroma_db";
                 collection_name := "rag_collection";
                 _collection := indexed |} /\
       fst <$> indexed = split_documents (splitter_of s) (d :: ds)).
Proof.
  rewrite load_documents_from_directory_run. simpl fst. intros Hload. split.
  - intros e Hfail. exists (set_chroma_db None (initialized s)).
    rewrite process_documents_run, Hload. split.
    + destruct Hfail as [Hopen|[Hopen Hembed]]; rewrite Hopen;
        [|rewrite Hembed]; reflexivity.
    + split; [reflexivity|]. split; [reflexivity|]. intros q env.
      apply retrieve_documents_index_only. reflexivity.
  - intros indexed Hopen Hembed. eexists.
    rewrite process_documents_run, Hload, Hopen, Hembed.
    repeat split. apply embed_all_fst. exact Hembed.
Qed.

End Ingestion.

(** *** Ingestion on the test doubles *)

Example stub_png_folder_loads_nothing :
  process_documents (H := Stub.healthy)
    Stub.picture_pending
  = (Returns false, Stub.picture_pending).
Proof. vm_compute. reflexivity. Qed.

Lemma process_documents_no_documents_witness :
  fst (load_documents_from_directory (H := Stub.healthy)
         UPLOAD_FOLDER Stub.picture_pending)
    = Returns [] /\
  exists s',
    process_documents (H := Stub.healthy)
      Stub.picture_pending = (Returns false, s') /\
    document_store s' =
      document_store Stub.picture_pending /\
    chroma_db s' = chroma_db Stub.picture_pending /\
    forall q env,
      fst (retrieve_documents (H := Stub.healthy) q env s') =
      fst (retrieve_documents (H := Stub.healthy) q env
             Stub.picture_pending).
Proof.
  split; [vm_compute; reflexivity|].
  apply process_documents_no_documents. vm_compute. reflexivity.
Defined.

Example stub_broken_pdf_aborts_upload :
  fst (upload_files (H := Stub.healthy) [Stub.broken_pdf; Stub.sky]
         Stub.indexed_state)
  = Raises "Invalid PDF uploads/scan.pdf".
Proof. vm_compute. reflexivity. Qed.

(** C6 fails as stated: with an unreadable [scan.pdf] next to a readable
    [sky.txt], loading the folder does not return the documents of
    [sky.txt]; it raises. *)
Lemma unreadable_file_not_skipped :
  ~ (forall (s : State) (name bytes : string) (docs : list Document),
       uploads s !! name = Some bytes ->
       loader_result (H := Stub.healthy) UPLOAD_FOLDER name bytes
         = Some (Returns docs) ->
       exists documents,
         fst (load_documents_from_directory (H := Stub.healthy)
                UPLOAD_FOLDER s) = Returns documents /\
         forall d, d ∈ docs -> d ∈ documents).
Proof.
  intros Hclaim.
  destruct (Hclaim Stub.scan_pending "sky.txt" "The sky is blue."
    [{| page_content := "The sky is blue.";
        metadata_source := "uploads/sky.txt" |}])
    as (documents & Hrun & _).
  - vm_compute. reflexivity.
  - vm_compute. reflexivity.
  - vm_compute in Hrun. discriminate Hrun.
Qed.

Lemma unreadable_file_aborts_batch_witness :
  uploads Stub.scan_pending !! "scan.pdf" = Some "not a pdf" /\
  loader_result (H := Stub.healthy) UPLOAD_FOLDER "scan.pdf" "not a pdf"
    = Some (Raises "Invalid PDF uploads/scan.pdf") /\
  exists name' bytes' e' s',
    uploads Stub.scan_pending !! name' = Some bytes' /\
    loader_result (H := Stub.healthy) UPLOAD_FOLDER name' bytes'
      = Some (Raises e') /\
    fst (load_documents_from_directory (H := Stub.healthy) UPLOAD_FOLDER
           Stub.scan_pending) = Raises e' /\
    process_documents (H := Stub.healthy) Stub.scan_pending
      = (Raises e', s') /\
    document_store s' = document_store Stub.scan_pending /\
    chroma_db s' = chroma_db Stub.scan_pending.
Proof.
  split; [vm_compute; reflexivity|].
  split; [vm_compute; reflexivity|].
  apply (unreadable_file_aborts_batch Stub.scan_pending "scan.pdf"
           "not a pdf" "Invalid PDF uploads/scan.pdf");
    vm_compute; reflexivity.
Defined.

(** C2 fails as stated: with the sky index in place and [grass.txt] in the
    folder, the build of the new index fails, and the persist directory that
    held the previous generation is gone all the same. *)
Lemma failed_rebuild_loses_previous_index :
  ~ (forall (s s' : State) d ds e,
       fst (load_documents_from_directory (H := Stub.healthy)
              UPLOAD_FOLDER s) = Returns (d :: ds) ->
       process_documents (H := Stub.healthy) s = (Raises e, s') ->
       chroma_db s' = chroma_db s).
Proof.
  intros Hclaim.
  specialize (Hclaim Stub.grass_pending
    (snd (process_documents (H := Stub.healthy) Stub.grass_pending))
    Stub.grass_document [] "attempt to write a readonly database").
  assert (Hdb := Hclaim ltac:(vm_compute; reflexivity)
                        ltac:(vm_compute; reflexivity)).
  vm_compute in Hdb. discriminate Hdb.
Qed.

Example stub_failed_rebuild_before_after :
  chroma_db Stub.grass_pending = Some [Stub.sky_chunk] /\
  fst (process_documents (H := Stub.healthy) Stub.grass_pending)
    = Raises "attempt to write a readonly database" /\
  chroma_db (snd (process_documents (H := Stub.healthy) Stub.grass_pending))
    = None /\
  fst (retrieve_documents (H := Stub.healthy) "sky?" Stub.env
         (snd (process_documents (H := Stub.healthy) Stub.grass_pending)))
    = Returns (Retrieved ["The sky is blue."] "The sky is blue." 3).
Proof. vm_compute. repeat split; reflexivity. Qed.

Example stub_failed_embedding_after_restart :
  fst (process_documents (H := Stub.over_quota) (restart Stub.grass_pending))
    = Raises "429 embedding quota exceeded" /\
  chroma_db (snd (process_documents (H := Stub.over_quota)
                    (restart Stub.grass_pending))) = None.
Proof. vm_compute. split; reflexivity. Qed.

Lemma rebuild_removes_collection_before_build_witness :
  fst (load_documents_from_directory (H := Stub.healthy) UPLOAD_FOLDER
         Stub.grass_pending) = Returns [Stub.grass_document] /\
  exists s',
    process_documents (H := Stub.healthy) Stub.grass_pending
      = (Raises "attempt to write a readonly database", s') /\
    chroma_db Stub.grass_pending = Some [Stub.sky_chunk] /\
    chroma_db s' = None /\
    document_store s' = Some Stub.sky_store /\
    fst (retrieve_documents (H := Stub.healthy) "sky?" Stub.env s')
      = Returns (Retrieved ["The sky is blue."] "The sky is blue." 3).
Proof.
  split; [vm_compute; reflexivity|].
  destruct (rebuild_removes_collection_before_build
              (H := Stub.healthy) Stub.grass_pending
              Stub.grass_document [])
    as [Hfail _]; [vm_compute; reflexivity|].
  destruct (Hfail "attempt to write a readonly database")
    as (s' & Hrun & Hdb & Hstore & Hquery); [left; vm_compute; reflexivity|].
  exists s'. split; [exact Hrun|]. split; [vm_compute; reflexivity|].
  split; [exact Hdb|]. split.
  - rewrite Hstore. vm_compute. reflexivity.
  - rewrite Hquery. vm_compute. reflexivity.
Defined.

(** ** Upload *)

Section Upload.
Context `{Collaborators}.

Lemma lookup_remove_listed (names : list string) (folder : gmap string string)
    (name : string) :
  remove_listed names folder !! name =
    if decide (name ∈ names) then None else folder !! name.
Proof.
  induction names as [|n names IH]; simpl.
  - destruct (decide (name ∈ [])) as [Hin|_]; [inversion Hin|reflexivity].
  - destruct (decide (n = name)) as [->|Hne].
    + rewrite lookup_delete_eq.
      destruct (decide (name ∈ name :: names)) as [_|Hnot];
        [reflexivity|]. exfalso. apply Hnot. left.
    + rewrite lookup_delete_ne by exact Hne. rewrite IH.
      destruct (decide (name ∈ names)) as [Hin|Hnin];
        destruct (decide (name ∈ n :: names)) as [Hin'|Hnin'];
        try reflexivity.
      * exfalso. apply Hnin'. right. exact Hin.
      * exfalso. apply elem_of_cons in Hin' as [->|Hin']; [apply Hne|apply Hnin];
          done.
Qed.

(** Removing every listed file empties the folder. *)
Lemma remove_listed_all (folder : gmap string string) :
  remove_listed (fst <$> listdir folder) folder = ∅.
Proof.
  apply map_eq. intros name. rewrite lookup_remove_listed, lookup_empty.
  destruct (decide _) as [_|Hnot]; [reflexivity|].
  destruct (folder !! name) as [bytes|] eqn:Hname; [|reflexivity].
  exfalso. apply Hnot. apply list_elem_of_fmap.
  exists (name, bytes). split; [reflexivity|].
  apply elem_of_listdir. exact Hname.
Qed.

(** A saving loop that returns has stored the files and touched nothing
    else. *)
Lemma save_files_returns (files : list FileStorage) :
  forall uploaded_files s names s1,
    save_files files uploaded_files s = (Returns names, s1) ->
    s1 = set_uploads (stored files (uploads s)) s.
Proof.
  induction files as [|file rest IH]; intros acc s names s1; simpl.
  - intros [= _ <-]. destruct s; reflexivity.
  - destruct (Py.truthy (filename file) && allowed_file (filename file)).
    + unfold bind at 1, file_save.
      destruct (Py.truthy (secure_filename (filename file))).
      * unfold modify. intros Hrun. apply IH in Hrun. exact Hrun.
      * unfold raise. discriminate.
    + apply IH.
Qed.


Lemma some_file_selected (files : list FileStorage) :
  (exists file, file ∈ files /\ Py.truthy (filename file) = true) ->
  forallb (fun file => negb (Py.truthy (filename file))) files = false.
Proof.
  intros (file & Hin & Htruthy).
  destruct (forallb _ files) eqn:Hall; [|reflexivity].
  rewrite forallb_forall in Hall.
  apply list_elem_of_In, Hall in Hin. rewrite Htruthy in Hin. discriminate.
Qed.


(** A query returns texts of chunks of the served collection only. *)
Lemma retrieve_documents_from_collection (s : State) q env r :
  fst (retrieve_documents q env s) = Returns r ->
  forall c, c ∈ response_context r ->
    exists d, d ∈ fst <$> served_collection s /\ page_content d = c.
Proof.
  unfold retrieve_documents, bind at 1, get, served_collection.
  destruct (document_store s) as [store|].
  2:{ intros [= <-] c Hc. inversion Hc. }
  unfold try_except, bind, retriever_invoke, bind, lift, ret.
  destruct (embed_query q) as [v|e].
  2:{ intros [= <-] c Hc. inversion Hc. }
  simpl. intros [= <-] c Hc. simpl in Hc.
  apply list_elem_of_fmap in Hc as (d & -> & Hd).
  exists d. split; [|reflexivity].
  apply elem_of_take in Hd as (j & Hd & _).
  apply list_elem_of_lookup_2 in Hd.
  apply list_elem_of_omap in Hd as (i & _ & Hi).
  destruct (_collection store !! i) as [[d' v']|] eqn:Hlook; [|discriminate].
  injection Hi as <-. apply list_elem_of_fmap. exists (d', v').
  split; [reflexivity|]. eapply list_elem_of_lookup_2. exact Hlook.
Qed.

(** Past the two gates, [upload_files] empties the folder and goes on from
    there. *)
Lemma upload_files_selected (files : list FileStorage) (s : State) :
  forallb (fun file => negb (Py.truthy (filename file))) files = false ->
  upload_files files s =
    (do uploaded_files <- save_files files [];
     match uploaded_files with
     | [] =>
         ret {| status := 400; body := ErrorBody "No valid files uploaded" |}
     | _ :: _ =>
         do success <- process_documents;
         if success : bool then
           ret {| status := 200;
                  body := UploadBody
                    ("Successfully uploaded and processed " +:+
                     pretty (length uploaded_files) +:+ " files")
                    uploaded_files |}
         else
           ret {| status := 500;
                  body := ErrorBody "Failed to process documents" |}
     end) (set_uploads ∅ s).
Proof.
  intros Hgate. unfold upload_files.
  destruct files as [|file rest]; [discriminate Hgate|].
  rewrite Hgate. unfold bind at 1, modify. rewrite remove_listed_all.
  reflexivity.
Qed.

(** After an upload answered 200, whatever the state before it: the upload
    folder holds the files of this batch only, the persist directory and the
    Chroma object bound to [document_store] hold exactly the chunks of this
    batch, and every text a query returns is the text of a chunk of this
    batch. *)
Lemma successful_upload_replaces_index (files : list FileStorage)
    (s s' : State) (resp : Response) :
  upload_files files s = (Returns resp, s') ->
  status resp = 200 ->
  exists chunks indexed,
    batch_chunks (splitter_of s) files = Returns chunks /\
    uploads s' = stored files ∅ /\
    fst <$> indexed = chunks /\
    chroma_db s' = Some indexed /\
    document_store s' =
      Some {| persist_directory := "./chroma_db";
              collection_name := "rag_collection";
              _collection := indexed |} /\
    forall q env r,
      fst (retrieve_documents q env s') = Returns r ->
      forall c, c ∈ response_context r ->
        exists d, d ∈ chunks /\ page_content d = c.
Proof.
  intros Hrun Hok.
  destruct (forallb (fun file => negb (Py.truthy (filename file))) files)
    eqn:Hgate.
  { unfold upload_files in Hrun. rewrite Hgate in Hrun.
    destruct files; injection Hrun as <- _; discriminate Hok. }
  rewrite (upload_files_selected files s Hgate) in Hrun.
  unfold bind at 1 in Hrun.
  destruct (save_files files [] (set_uploads ∅ s)) as [[names|e] s1] eqn:Hsave;
    [|discriminate Hrun].
  apply save_files_returns in Hsave. simpl uploads in Hsave.
  destruct names as [|name names].
  { injection Hrun as <- _. discriminate Hok. }
  unfold bind at 1 in Hrun. rewrite process_documents_run in Hrun.
  assert (Hfolder : uploads s1 = stored files ∅) by (subst s1; reflexivity).
  assert (Hsplit : splitter_of s1 = splitter_of s) by (subst s1; reflexivity).
  rewrite Hfolder, Hsplit in Hrun. unfold batch_chunks.
  destruct (load_entries UPLOAD_FOLDER (listdir (stored files ∅)) [])
    as [[|d ds]|e]; [| |discriminate Hrun].
  { injection Hrun as <- _. discriminate Hok. }
  destruct (chroma_open _ _) as [[]|e]; [|discriminate Hrun].
  destruct (embed_all (split_documents (splitter_of s) (d :: ds)))
    as [indexed|e] eqn:Hembed; [|discriminate Hrun].
  injection Hrun as _ <-. apply embed_all_fst in Hembed.
  exists (split_documents (splitter_of s) (d :: ds)), indexed.
  split; [reflexivity|]. split; [exact Hfolder|].
  split; [exact Hembed|]. split; [reflexivity|]. split; [reflexivity|].
  intros q env r Hq c Hc.
  destruct (retrieve_documents_from_collection _ q env r Hq c Hc)
    as (d' & Hd' & Hpage).
  exists d'. split; [|exact Hpage]. unfold served_collection in Hd'.
  simpl in Hd'. rewrite Hembed in Hd'. exact Hd'.
Qed.

(** C7.  After a first upload answered 200, a second upload handled on the
    folder and persist directory the first one left, by the same process or
    by a restarted one, and answered 200 as well: the upload folder holds
    the files of the second batch only; the persist directory and the
    collection queries are answered from hold the chunks of the second batch
    and no other; a query returns texts of chunks of the second batch only,
    so a text that is no chunk of the second batch, such as content unique
    to the first upload, is never returned. *)
Theorem second_upload_discards_first (files1 files2 : list FileStorage)
    (s0 s1 s1' s2 : State) (resp1 resp2 : Response) :
  upload_files files1 s0 = (Returns resp1, s1) ->
  status resp1 = 200 ->
  uploads s1' = uploads s1 ->
  chroma_db s1' = chroma_db s1 ->
  upload_files files2 s1' = (Returns resp2, s2) ->
  status resp2 = 200 ->
  exists chunks2,
    batch_chunks (splitter_of s1') files2 = Returns chunks2 /\
    uploads s2 = stored files2 ∅ /\
    (forall d, d ∈ fst <$> default [] (chroma_db s2) <-> d ∈ chunks2) /\
    (forall d, d ∈ fst <$> served_collection s2 <-> d ∈ chunks2) /\
    forall q env r,
      fst (retrieve_documents q env s2) = Returns r ->
      (forall c, c ∈ response_context r ->
         exists d, d ∈ chunks2 /\ page_content d = c) /\
      (forall c, (forall d, d ∈ chunks2 -> page_content d <> c) ->
         c ∉ response_context r).
Proof.
  intros _ _ _ _ Hsecond Hok.
  destruct (successful_upload_replaces_index files2 s1' s2 resp2 Hsecond Hok)
    as (chunks2 & indexed & Hbatch & Hfolder & Hfst & Hdb & Hstore & Hquery).
  exists chunks2. split; [exact Hbatch|]. split; [exact Hfolder|].
  split; [|split].
  - intros d. rewrite Hdb. simpl. rewrite Hfst. reflexivity.
  - intros d. unfold served_collection. rewrite Hstore. simpl.
    rewrite Hfst. reflexivity.
  - intros q env r Hq. split.
    + apply (Hquery q env r Hq).
    + intros c Hunique Hc.
      destruct (Hquery q env r Hq c Hc) as (d & Hd & Hpage).
      exact (Hunique d Hd Hpage).
Qed.

End Upload.

(** *** Uploads on the test doubles *)

Example stub_second_upload_same_process :
  fst (upload_files (H := Stub.healthy) [Stub.grass] Stub.indexed_state)
    = Raises "attempt to write a readonly database" /\
  fst (retrieve_documents (H := Stub.healthy) "What color is the sky?" Stub.env
         (Stub.after (upload_files (H := Stub.healthy) [Stub.grass])
                     Stub.indexed_state))
    = Returns (Retrieved ["The sky is blue."] "The sky is blue." 3).
Proof. vm_compute. split; reflexivity. Qed.

Example stub_second_upload_after_restart :
  fst (upload_files (H := Stub.healthy) [Stub.grass]
         (restart Stub.indexed_state))
    = Returns {| status := 200;
                 body := UploadBody
                           "Successfully uploaded and processed 1 files"
                           ["grass.txt"] |} /\
  fst (retrieve_documents (H := Stub.healthy) "What color is the sky?" Stub.env
         (Stub.after (upload_files (H := Stub.healthy) [Stub.grass])
                     (restart Stub.indexed_state)))
    = Returns (Retrieved ["Grass is green."] "Grass is green." 3).
Proof. vm_compute. split; reflexivity. Qed.

Lemma second_upload_discards_first_witness :
  upload_files (H := Stub.healthy) [Stub.sky] initial_state =
    (Returns {| status := 200;
                body := UploadBody "Successfully uploaded and processed 1 files"
                                   ["sky.txt"] |},
     Stub.indexed_state) /\
  upload_files (H := Stub.healthy) [Stub.grass] (restart Stub.indexed_state) =
    (Returns {| status := 200;
                body := UploadBody "Successfully uploaded and processed 1 files"
                                   ["grass.txt"] |},
     Stub.after (upload_files (H := Stub.healthy) [Stub.grass])
                (restart Stub.indexed_state)) /\
  forall q env r,
    fst (retrieve_documents (H := Stub.healthy) q env
           (Stub.after (upload_files (H := Stub.healthy) [Stub.grass])
                       (restart Stub.indexed_state))) = Returns r ->
    "The sky is blue." ∉ response_context r.
Proof.
  split; [vm_compute; reflexivity|].
  split; [vm_compute; reflexivity|].
  destruct (second_upload_discards_first (H := Stub.healthy)
              [Stub.sky] [Stub.grass] initial_state Stub.indexed_state
              (restart Stub.indexed_state)
              (Stub.after (upload_files (H := Stub.healthy) [Stub.grass])
                          (restart Stub.indexed_state))
              {| status := 200;
                 body := UploadBody
                           "Successfully uploaded and processed 1 files"
                           ["sky.txt"] |}
              {| status := 200;
                 body := UploadBody
                           "Successfully uploaded and processed 1 files"
                           ["grass.txt"] |})
    as (chunks2 & Hbatch & _ & _ & _ & Hquery);
    [vm_compute; reflexivity|reflexivity|reflexivity|reflexivity
    |vm_compute; reflexivity|reflexivity|].
  intros q env r Hq. apply (Hquery q env r Hq).
  vm_compute in Hbatch. injection Hbatch as <-.
  intros d Hd. apply list_elem_of_singleton in Hd as ->. discriminate.
Defined.


Example stub_invalid_upload_empties_folder :
  uploads Stub.indexed_state = {[ "sky.txt" := "The sky is blue." ]} /\
  uploads (Stub.after (upload_files (H := Stub.healthy) [Stub.picture])
                      Stub.indexed_state) = ∅.
Proof. vm_compute. split; reflexivity. Qed.

(** ** Chat *)

Section Chat.
Context `{Collaborators}.

Lemma load_memory_variables_run session_id (s : State) :
  load_memory_variables session_id s = (Returns (history s session_id), s).
Proof. reflexivity. Qed.

Lemma add_message_run session_id msg (s : State) :
  add_message session_id msg s = (Returns tt, push session_id msg s).
Proof. reflexivity. Qed.

Lemma history_push session_id msg (s : State) :
  history (push session_id msg s) session_id = history s session_id ++ [msg].
Proof. unfold history, push. simpl. rewrite lookup_insert_eq. reflexivity. Qed.

Lemma history_push_other session_id other msg (s : State) :
  session_id <> other ->
  history (push session_id msg s) other = history s other.
Proof.
  intros Hne. unfold history, push. simpl.
  rewrite lookup_insert_ne by exact Hne. reflexivity.
Qed.

(** Retrieval reads the index and writes nothing. *)
Lemma retrieve_documents_state (s : State) q env :
  snd (retrieve_documents q env s) = s.
Proof.
  unfold retrieve_documents, bind at 1, get.
  destruct (document_store s) as [store|]; [|reflexivity].
  unfold try_except, bind, retriever_invoke, bind, lift, ret.
  destruct (embed_query q); reflexivity.
Qed.

Lemma retrieve_documents_returns (s : State) q env :
  exists r, retrieve_documents q env s = (Returns r, s).
Proof.
  unfold retrieve_documents, bind at 1, get.
  destruct (document_store s) as [store|]; [|eexists; reflexivity].
  unfold try_except, bind, retriever_invoke, bind, lift, ret.
  destruct (embed_query q); eexists; reflexivity.
Qed.

Lemma get_groq_response_run prompt context chat_history (s : State) :
  get_groq_response prompt context chat_history s =
    (Returns (answer_for (formatted_prompt prompt context chat_history)),
     set_groq_calls
       (groq_calls s ++ [formatted_prompt prompt context chat_history]) s).
Proof.
  unfold get_groq_response, try_except, bind, groq_chat_completion, bind,
    modify, lift, ret, answer_for.
  destruct (groq_create _); reflexivity.
Qed.

(** [chat] on a request that carries a message, branch by branch. *)
Lemma chat_run (req : ChatRequest) (env : ChatEnv) (s : State) :
  Py.truthy (default "" (json_message req)) = true ->
  let input_prompt := default "" (json_message req) in
  let session_id := fst (resolve_session req env) in
  let cookie := snd (resolve_session req env) in
  let user_turn := {| type := human; content := input_prompt |} in
  let s1 := push session_id user_turn s in
  chat req env s =
    match fst (retrieve_documents input_prompt env s) with
    | Raises e => (Raises e, s1)
    | Returns (Answered answer response_time context) =>
        (Returns ({| status := 200;
                     body := ChatBody answer response_time context
                               (content <$> history s session_id) |}, cookie),
         s1)
    | Returns (Retrieved context context_str response_time) =>
        let prompt :=
          formatted_prompt input_prompt context_str (history s session_id) in
        let answer := answer_for prompt in
        let s2 := set_groq_calls (groq_calls s1 ++ [prompt]) s1 in
        let s3 := push session_id {| type := ai; content := answer |} s2 in
        (Returns ({| status := 200;
                     body := ChatBody answer response_time context
                               (content <$> history s3 session_id) |}, cookie),
         s3)
    end.
Proof.
  intros Hmsg. cbv zeta. unfold chat. rewrite Hmsg.
  destruct (resolve_session req env) as [session_id cookie].
  cbn [negb fst snd]. unfold bind at 1. rewrite load_memory_variables_run.
  unfold bind at 1, add_user_message. rewrite add_message_run.
  unfold bind at 1.
  set (s1 := push session_id _ s).
  rewrite (retrieve_documents_index_only s s1) by reflexivity.
  destruct (retrieve_documents_returns s1 (default "" (json_message req)) env)
    as [r Hr].
  rewrite Hr. simpl fst. destruct r as [answer rt ctx|ctx cstr rt].
  - reflexivity.
  - unfold bind at 1. rewrite get_groq_response_run.
    unfold bind at 1, add_ai_message. rewrite add_message_run.
    unfold bind at 1. rewrite load_memory_variables_run. reflexivity.
Qed.

(** C4, as the code has it.  A chat request that carries a non-empty
    message, before any successful ingestion: the answer is the fixed "no
    documents uploaded" message, the response time is 0, the context is
    empty, no prompt is sent to the model, and exactly one turn, the user's,
    is added to the memory of the request's session; the other sessions are
    untouched. *)
Theorem chat_without_index (req : ChatRequest) (env : ChatEnv) (s : State) :
  document_store s = None ->
  Py.truthy (default "" (json_message req)) = true ->
  exists s',
    chat req env s =
      (Returns
         ({| status := 200;
             body := ChatBody
               "No documents uploaded yet. Please upload documents first."
               0 []
               (content <$> history s (fst (resolve_session req env))) |},
          snd (resolve_session req env)), s') /\
    groq_calls s' = groq_calls s /\
    history s' (fst (resolve_session req env)) =
      history s (fst (resolve_session req env)) ++
        [{| type := human; content := default "" (json_message req) |}] /\
    forall other,
      fst (resolve_session req env) <> other ->
      history s' other = history s other.
Proof.
  intros Hnone Hmsg. eexists. split.
  - rewrite (chat_run req env s Hmsg).
    unfold retrieve_documents, bind at 1, get. rewrite Hnone. reflexivity.
  - split; [reflexivity|]. split.
    + apply history_push.
    + intros other Hne. apply history_push_other. exact Hne.
Qed.

(** C9, as the code has it.  The session id of a chat request is the id in
    the client's session cookie when there is one, else the request's remote
    address when there is one, else eight fresh random bytes in hex.  A
    request with a message records its user turn under that id and hands the
    id back in the cookie, and a later request that presents this cookie
    resolves to the same id.  Two requests without cookie whose remote
    addresses are known and differ resolve to different ids. *)
Theorem resolve_session_sources (req : ChatRequest) (env : ChatEnv) :
  (Py.truthy_opt (session_cookie req) = true ->
     resolve_session req env =
       (default "" (session_cookie req), session_cookie req)) /\
  (Py.truthy_opt (session_cookie req) = false ->
   Py.truthy_opt (remote_addr req) = true ->
     resolve_session req env =
       (default "" (remote_addr req), Some (default "" (remote_addr req)))) /\
  (Py.truthy_opt (session_cookie req) = false ->
   Py.truthy_opt (remote_addr req) = false ->
     resolve_session req env =
       (Py.hex (os_urandom env 8), Some (Py.hex (os_urandom env 8)))) /\
  (forall s, Py.truthy (default "" (json_message req)) = true ->
     exists resp s',
       chat req env s = (Returns (resp, snd (resolve_session req env)), s') /\
       {| type := human; content := default "" (json_message req) |}
         ∈ history s' (fst (resolve_session req env))) /\
  (forall req' env',
     Py.truthy (fst (resolve_session req env)) = true ->
     session_cookie req' = snd (resolve_session req env) ->
     fst (resolve_session req' env') = fst (resolve_session req env)) /\
  (forall req' env',
     Py.truthy_opt (session_cookie req) = false ->
     Py.truthy_opt (session_cookie req') = false ->
     Py.truthy_opt (remote_addr req) = true ->
     Py.truthy_opt (remote_addr req') = true ->
     remote_addr req <> remote_addr req' ->
     fst (resolve_session req env) <> fst (resolve_session req' env')).
Proof.
  split; [|split; [|split; [|split; [|split]]]].
  - intros Hc. unfold resolve_session. rewrite Hc. reflexivity.
  - intros Hc Ha. unfold resolve_session. rewrite Hc, Ha. reflexivity.
  - intros Hc Ha. unfold resolve_session. rewrite Hc, Ha. reflexivity.
  - intros s Hmsg. rewrite (chat_run req env s Hmsg).
    destruct (retrieve_documents_returns s (default "" (json_message req)) env)
      as [r Hr].
    rewrite Hr. simpl fst. destruct r as [answer rt ctx|ctx cstr rt].
    + eexists _, _. split; [reflexivity|].
      rewrite history_push. apply elem_of_app. right. left.
    + eexists _, _. split; [reflexivity|].
      rewrite history_push. apply elem_of_app. left.
      change (history (set_groq_calls ?g ?s1) ?i) with (history s1 i).
      rewrite history_push. apply elem_of_app. right. left.
  - intros req' env' Htruthy Hcookie.
    unfold resolve_session at 1. rewrite Hcookie.
    unfold resolve_session in Htruthy |- *.
    destruct (Py.truthy_opt (session_cookie req)) eqn:Hc.
    + simpl in *. rewrite Hc. reflexivity.
    + simpl in *. rewrite Htruthy. reflexivity.
  - intros req' env' Hc Hc' Ha Ha' Hne.
    unfold resolve_session. rewrite Hc, Hc', Ha, Ha'. simpl.
    destruct (remote_addr req) as [a|], (remote_addr req') as [a'|];
      try discriminate. simpl. congruence.
Qed.

Lemma save_files_redis (files : list FileStorage) :
  forall uploaded_files s,
    redis (snd (save_files files uploaded_files s)) = redis s.
Proof.
  induction files as [|file rest IH]; intros acc s; simpl; [reflexivity|].
  destruct (Py.truthy (filename file) && allowed_file (filename file));
    [|apply IH].
  unfold bind, file_save.
  destruct (Py.truthy (secure_filename (filename file))); [|reflexivity].
  unfold modify. rewrite IH. reflexivity.
Qed.

Lemma process_documents_redis (s : State) :
  redis (snd (process_documents s)) = redis s.
Proof.
  rewrite process_documents_run.
  destruct (load_entries _ _ _) as [[|d ds]|e]; try reflexivity.
  destruct (chroma_open _ _); [|reflexivity].
  destruct (embed_all _); reflexivity.
Qed.

(** An upload never touches the session memory. *)
Lemma upload_files_redis (files : list FileStorage) (s : State) :
  redis (snd (upload_files files s)) = redis s.
Proof.
  destruct (forallb (fun file => negb (Py.truthy (filename file))) files)
    eqn:Hgate.
  { unfold upload_files. rewrite Hgate. destruct files; reflexivity. }
  rewrite (upload_files_selected files s Hgate). unfold bind at 1.
  pose proof (save_files_redis files [] (set_uploads ∅ s)) as Hsave.
  destruct (save_files files [] (set_uploads ∅ s)) as [[names|e] s1];
    simpl in Hsave; [|exact Hsave].
  destruct names as [|name names]; [exact Hsave|].
  unfold bind at 1.
  pose proof (process_documents_redis s1) as Hproc.
  destruct (process_documents s1) as [[[]|e] s2]; simpl in Hproc |- *;
    congruence.
Qed.

(** A chat request only ever appends to a session's turns. *)
Lemma chat_history_grows (req : ChatRequest) (env : ChatEnv) (s : State)
    (session_id : string) :
  history s session_id `prefix_of` history (snd (chat req env s)) session_id.
Proof.
  destruct (Py.truthy (default "" (json_message req))) eqn:Hmsg.
  2:{ unfold chat. rewrite Hmsg. reflexivity. }
  rewrite (chat_run req env s Hmsg).
  set (sid := fst (resolve_session req env)).
  set (u := {| type := human; content := default "" (json_message req) |}).
  assert (Huser : history s session_id
                    `prefix_of` history (push sid u s) session_id).
  { destruct (decide (sid = session_id)) as [<-|Hne].
    - rewrite history_push. apply prefix_app_r. reflexivity.
    - rewrite history_push_other by exact Hne. reflexivity. }
  destruct (fst (retrieve_documents _ env s)) as [[answer rt ctx|ctx cstr rt]|e];
    simpl snd; try exact Huser.
  etrans; [exact Huser|].
  match goal with |- _ `prefix_of` history (push sid ?a ?s2) _ =>
    change (history (push sid u s) session_id) with (history s2 session_id);
    destruct (decide (sid = session_id)) as [<-|Hne];
      [rewrite (history_push sid a s2); apply prefix_app_r; reflexivity
      |rewrite (history_push_other sid session_id a s2) by exact Hne;
       reflexivity]
  end.
Qed.

Lemma handle_history_grows (r : Request) (s : State) (session_id : string) :
  history s session_id `prefix_of` history (handle r s) session_id.
Proof.
  destruct r as [req env|files]; simpl.
  - apply chat_history_grows.
  - unfold history. rewrite upload_files_redis. reflexivity.
Qed.

(** Whatever requests follow, the turns already recorded stay where they
    are. *)
Lemma serve_history_grows (requests : list Request) :
  forall (s : State) (session_id : string),
    history s session_id `prefix_of` history (serve requests s) session_id.
Proof.
  induction requests as [|r rest IH]; intros s session_id; simpl.
  - reflexivity.
  - etrans; [apply (handle_history_grows r)|apply IH].
Qed.

(** C5.  A chat request that reaches generation (it carries a message and
    retrieval returned context) and whose completion call raises [e]: the
    answer is the non-empty string "Error generating response: " followed by
    [e]; the user turn and then that very string as the assistant turn are
    appended to the session's memory; the history in the response ends with
    it, and it is in the session's history after any further requests. *)
Theorem generation_failure_recorded (req : ChatRequest) (env : ChatEnv)
    (s : State) (context : list string) (context_str : string)
    (response_time : Z) (e : string) :
  Py.truthy (default "" (json_message req)) = true ->
  fst (retrieve_documents (default "" (json_message req)) env s)
    = Returns (Retrieved context context_str response_time) ->
  groq_create
    (formatted_prompt (default "" (json_message req)) context_str
       (history s (fst (resolve_session req env)))) = Raises e ->
  exists s',
    chat req env s =
      (Returns
         ({| status := 200;
             body := ChatBody ("Error generating response: " +:+ e)
               response_time context
               (content <$>
                  history s (fst (resolve_session req env)) ++
                  [{| type := human;
                      content := default "" (json_message req) |};
                   {| type := ai;
                      content := "Error generating response: " +:+ e |}]) |},
          snd (resolve_session req env)), s') /\
    Py.truthy ("Error generating response: " +:+ e) = true /\
    history s' (fst (resolve_session req env)) =
      history s (fst (resolve_session req env)) ++
      [{| type := human; content := default "" (json_message req) |};
       {| type := ai; content := "Error generating response: " +:+ e |}] /\
    forall later,
      {| type := ai; content := "Error generating response: " +:+ e |}
        ∈ history (serve later s') (fst (resolve_session req env)) /\
      exists turns,
        fst (load_memory_variables (fst (resolve_session req env))
               (serve later s')) = Returns turns /\
        {| type := ai; content := "Error generating response: " +:+ e |}
          ∈ turns.
Proof.
  intros Hmsg Hretrieved Hraise.
  set (sid := fst (resolve_session req env)) in *.
  set (u := {| type := human; content := default "" (json_message req) |}).
  set (a := {| type := ai; content := "Error generating response: " +:+ e |}).
  pose proof (chat_run req env s Hmsg) as Hrun. cbv zeta in Hrun.
  rewrite Hretrieved in Hrun. fold sid u in Hrun.
  unfold answer_for in Hrun. rewrite Hraise in Hrun. fold a in Hrun.
  set (s' := push sid a _) in Hrun.
  assert (Hturns : history s' sid = history s sid ++ [u; a]).
  { unfold s'. rewrite history_push.
    change (history (set_groq_calls ?g ?s1) ?i) with (history s1 i).
    rewrite history_push, <- app_assoc. reflexivity. }
  assert (Hlater : forall later, a ∈ history (serve later s') sid).
  { intros later.
    destruct (serve_history_grows later s' sid) as [more Hmore].
    rewrite Hmore, Hturns. apply elem_of_app. left.
    apply elem_of_app. right. right. left. }
  exists s'. split; [|split; [|split]].
  - rewrite Hrun, Hturns. reflexivity.
  - reflexivity.
  - exact Hturns.
  - intros later. split; [apply Hlater|].
    exists (history (serve later s') sid). split; [reflexivity|apply Hlater].
Qed.

End Chat.

(** *** Chat on the test doubles *)

Example stub_chat_empty_message :
  chat (H := Stub.healthy)
    {| json_message := Some ""; session_cookie := None;
       remote_addr := Some "203.0.113.7" |} Stub.env initial_state
  = (Returns ({| status := 400; body := ErrorBody "No message provided" |},
              None), initial_state).
Proof. vm_compute. reflexivity. Qed.

(** C4 fails as stated: a chat request with an empty message, before any
    ingestion, is answered 400 without the "no documents uploaded" answer, and
    no turn is recorded for it. *)
Lemma empty_message_before_ingestion :
  ~ (forall (req : ChatRequest) (env : ChatEnv) (s : State),
       document_store s = None ->
       exists history_shown cookie s',
         chat (H := Stub.healthy) req env s =
           (Returns
              ({| status := 200;
                  body := ChatBody
                    "No documents uploaded yet. Please upload documents first."
                    0 [] history_shown |}, cookie), s') /\
         length (history s' (fst (resolve_session req env))) =
           S (length (history s (fst (resolve_session req env))))).
Proof.
  intros Hclaim.
  destruct (Hclaim
    {| json_message := Some ""; session_cookie := None;
       remote_addr := Some "203.0.113.7" |} Stub.env initial_state eq_refl)
    as (shown & cookie & s' & Hrun & _).
  vm_compute in Hrun. discriminate Hrun.
Qed.

Lemma chat_without_index_witness :
  document_store initial_state = None /\
  Py.truthy (default "" (Some "What color is the sky?")) = true /\
  exists s',
    chat (H := Stub.healthy)
      {| json_message := Some "What color is the sky?";
         session_cookie := None; remote_addr := Some "203.0.113.7" |}
      Stub.env initial_state =
      (Returns
         ({| status := 200;
             body := ChatBody
               "No documents uploaded yet. Please upload documents first."
               0 [] [] |}, Some "203.0.113.7"), s') /\
    groq_calls s' = [] /\
    history s' "203.0.113.7" =
      [{| type := human; content := "What color is the sky?" |}].
Proof.
  split; [reflexivity|]. split; [reflexivity|].
  destruct (chat_without_index (H := Stub.healthy)
              {| json_message := Some "What color is the sky?";
                 session_cookie := None; remote_addr := Some "203.0.113.7" |}
              Stub.env initial_state eq_refl eq_refl)
    as (s' & Hrun & Hcalls & Hturn & _).
  exists s'. split; [exact Hrun|]. split; [exact Hcalls|]. exact Hturn.
Defined.

Example stub_chat_answers_from_index :
  fst (chat (H := Stub.healthy)
         {| json_message := Some "What color is the sky?";
            session_cookie := None; remote_addr := Some "203.0.113.7" |}
         Stub.env Stub.indexed_state)
  = Returns
      ({| status := 200;
          body := ChatBody "The sky is blue." 3 ["The sky is blue."]
                    ["What color is the sky?"; "The sky is blue."] |},
       Some "203.0.113.7").
Proof. vm_compute. reflexivity. Qed.

Lemma generation_failure_recorded_witness :
  Py.truthy (default "" (Some "What color is the sky?")) = true /\
  fst (retrieve_documents (H := Stub.groq_down) "What color is the sky?"
         Stub.env Stub.indexed_state)
    = Returns (Retrieved ["The sky is blue."] "The sky is blue." 3) /\
  groq_create (Collaborators := Stub.groq_down)
    (formatted_prompt "What color is the sky?" "The sky is blue."
       (history Stub.indexed_state "203.0.113.7"))
    = Raises "Connection error." /\
  exists s',
    fst (chat (H := Stub.groq_down)
           {| json_message := Some "What color is the sky?";
              session_cookie := None; remote_addr := Some "203.0.113.7" |}
           Stub.env Stub.indexed_state)
    = Returns
        ({| status := 200;
            body := ChatBody "Error generating response: Connection error."
                      3 ["The sky is blue."]
                      ["What color is the sky?";
                       "Error generating response: Connection error."] |},
         Some "203.0.113.7") /\
    forall later,
      {| type := ai;
         content := "Error generating response: Connection error." |}
        ∈ history (serve (H := Stub.groq_down) later s') "203.0.113.7".
Proof.
  split; [reflexivity|].
  split; [vm_compute; reflexivity|].
  split; [vm_compute; reflexivity|].
  destruct (generation_failure_recorded (H := Stub.groq_down)
              {| json_message := Some "What color is the sky?";
                 session_cookie := None; remote_addr := Some "203.0.113.7" |}
              Stub.env Stub.indexed_state
              ["The sky is blue."] "The sky is blue." 3 "Connection error.")
    as (s' & Hrun & _ & _ & Hlater);
    [reflexivity|vm_compute; reflexivity|vm_compute; reflexivity|].
  exists s'. split.
  - rewrite Hrun. vm_compute. reflexivity.
  - intros later. apply (Hlater later).
Defined.

(** C9 fails as stated: two requests without cookie that come from one
    remote address resolve to the same session id, whatever random bytes
    each of them would have drawn. *)
Lemma shared_address_shares_session :
  ~ (forall (req1 req2 : ChatRequest) (env1 env2 : ChatEnv),
       session_cookie req1 = None ->
       session_cookie req2 = None ->
       os_urandom env1 8 <> os_urandom env2 8 ->
       fst (resolve_session req1 env1) <> fst (resolve_session req2 env2)).
Proof.
  intros Hclaim.
  apply (Hclaim
    {| json_message := Some "What color is the sky?";
       session_cookie := None; remote_addr := Some "203.0.113.7" |}
    {| json_message := Some "And grass?";
       session_cookie := None; remote_addr := Some "203.0.113.7" |}
    Stub.env
    {| os_urandom := fun n => replicate n Byte.x07;
       process_time_start := 20; process_time_end := 21 |});
    [reflexivity|reflexivity|discriminate|reflexivity].
Qed.

Example stub_shared_address_histories_interfere :
  fst (chat (H := Stub.healthy)
         {| json_message := Some "And grass?";
            session_cookie := None; remote_addr := Some "203.0.113.7" |}
         Stub.env
         (snd (chat (H := Stub.healthy)
                 {| json_message := Some "What color is the sky?";
                    session_cookie := None;
                    remote_addr := Some "203.0.113.7" |}
                 Stub.env Stub.indexed_state)))
  = Returns
      ({| status := 200;
          body := ChatBody "The sky is blue." 3 ["The sky is blue."]
                    ["What color is the sky?"; "The sky is blue.";
                     "And grass?"; "The sky is blue."] |},
       Some "203.0.113.7").
Proof. vm_compute. reflexivity. Qed.

Example stub_random_session_id :
  resolve_session
    {| json_message := Some "hi"; session_cookie := None;
       remote_addr := None |} Stub.env
  = ("2a2a2a2a2a2a2a2a", Some "2a2a2a2a2a2a2a2a").
Proof. reflexivity. Qed.

(** * Further properties of the code *)

(** ** File names ([allowed_file], line 86; suffix dispatch, lines 92-96) *)

Lemma string_app_cons (a : ascii) (s1 s2 : string) :
  String a s1 +:+ s2 = String a (s1 +:+ s2).
Proof. reflexivity. Qed.

Lemma rsplit_dot_none (s : string) :
  Py.rsplit_dot s = None <-> contains_dot s = false.
Proof.
  induction s as [|a s IH]; simpl; [tauto|].
  destruct (Py.rsplit_dot s) as [[pre ext]|].
  - split; [discriminate|]. intros Hdot.
    apply orb_false_iff in Hdot as [_ Hdot]. apply IH in Hdot. discriminate.
  - destruct IH as [IH _]. rewrite (IH eq_refl), orb_false_r.
    destruct (Ascii.eqb a "."); split; (discriminate || reflexivity).
Qed.

(** Splitting is at the last dot. *)
Lemma rsplit_dot_app (pre ext : string) :
  contains_dot ext = false ->
  Py.rsplit_dot (pre +:+ "." +:+ ext) = Some (pre, ext).
Proof.
  intros Hext. induction pre as [|a pre IH].
  - change ("" +:+ "." +:+ ext) with (String "." ext). simpl.
    apply rsplit_dot_none in Hext. rewrite Hext. reflexivity.
  - rewrite string_app_cons. simpl. rewrite IH. reflexivity.
Qed.

Lemma rsplit_dot_some (s pre ext : string) :
  Py.rsplit_dot s = Some (pre, ext) ->
  s = pre +:+ "." +:+ ext /\ contains_dot ext = false.
Proof.
  revert pre ext. induction s as [|a s IH]; intros pre ext; simpl;
    [discriminate|].
  destruct (Py.rsplit_dot s) as [[pre' ext']|] eqn:Hs.
  - intros [= <- <-]. destruct (IH pre' ext' eq_refl) as [-> Hext].
    split; [reflexivity|exact Hext].
  - destruct (Ascii.eqb a ".") eqn:Ha; [|discriminate].
    intros [= <- <-]. apply Ascii.eqb_eq in Ha as ->.
    split; [reflexivity|]. apply rsplit_dot_none. exact Hs.
Qed.

(** X1.  [allowed_file] accepts a name exactly when the name has a dot and
    the text after its last dot is, up to letter case, [pdf] or [txt]. *)
Theorem allowed_file_last_extension (name : string) :
  allowed_file name = true <->
  exists pre ext,
    name = pre +:+ "." +:+ ext /\ contains_dot ext = false /\
    (Py.lower ext = "pdf" \/ Py.lower ext = "txt").
Proof.
  unfold allowed_file. split.
  - destruct (Py.rsplit_dot name) as [[pre ext]|] eqn:Hsplit; [|discriminate].
    intros Hin. apply bool_decide_eq_true in Hin.
    destruct (rsplit_dot_some name pre ext Hsplit) as [Hname Hext].
    exists pre, ext. split; [exact Hname|]. split; [exact Hext|].
    unfold ALLOWED_EXTENSIONS in Hin.
    apply elem_of_cons in Hin as [Hpdf|Hin]; [left; exact Hpdf|].
    apply list_elem_of_singleton in Hin. right. exact Hin.
  - intros (pre & ext & -> & Hext & Hlower).
    rewrite (rsplit_dot_app pre ext Hext). apply bool_decide_eq_true.
    unfold ALLOWED_EXTENSIONS.
    destruct Hlower as [-> | ->]; [left|right; left].
Qed.

Section FileNames.
Context `{Collaborators}.

Lemma suffix_app (pre ext : string) :
  contains_dot ext = false ->
  Py.suffix (pre +:+ "." +:+ ext) =
    match pre, ext with
    | String _ _, String _ _ => "." +:+ ext
    | _, _ => ""
    end.
Proof.
  intros Hext. unfold Py.suffix. rewrite (rsplit_dot_app pre ext Hext).
  destruct pre, ext; reflexivity.
Qed.

Lemma suffix_no_dot (name : string) :
  contains_dot name = false -> Py.suffix name = "".
Proof.
  intros Hname. unfold Py.suffix. apply rsplit_dot_none in Hname.
  rewrite Hname. reflexivity.
Qed.

Lemma lower_dotted (ext : string) :
  Py.lower ("." +:+ ext) = "." +:+ Py.lower ext.
Proof. reflexivity. Qed.

(** X2.  The loop of [load_documents_from_directory] skips an entry whose
    name has no dot; an entry named stem.ext, [ext] being the text after the
    last dot, goes to the PDF loader when the stem and [ext] are not empty
    and [ext] is [pdf] in any letter case, to the text loader likewise for
    [txt], and is skipped otherwise.  A file stored under the name [pdf] or
    [.pdf] is therefore read by no loader. *)
Theorem load_entries_by_last_extension (directory_path bytes : string)
    (rest : list (string * string)) (documents : list Document) :
  (forall name,
     contains_dot name = false ->
     load_entries directory_path ((name, bytes) :: rest) documents =
       load_entries directory_path rest documents) /\
  (forall stem ext,
     contains_dot ext = false ->
     load_entries directory_path ((stem +:+ "." +:+ ext, bytes) :: rest)
       documents =
       match stem, ext with
       | String _ _, String _ _ =>
           if decide (Py.lower ext = "pdf") then
             match PyPDFLoader_load
                     (directory_path +:+ "/" +:+ stem +:+ "." +:+ ext) bytes
             with
             | Returns docs =>
                 load_entries directory_path rest (documents ++ docs)
             | Raises e => Raises e
             end
           else if decide (Py.lower ext = "txt") then
             match TextLoader_load
                     (directory_path +:+ "/" +:+ stem +:+ "." +:+ ext) bytes
             with
             | Returns docs =>
                 load_entries directory_path rest (documents ++ docs)
             | Raises e => Raises e
             end
           else load_entries directory_path rest documents
       | _, _ => load_entries directory_path rest documents
       end).
Proof.
  split.
  - intros name Hname. rewrite load_entries_step. unfold loader_result.
    rewrite (suffix_no_dot name Hname). reflexivity.
  - intros stem ext Hext. rewrite load_entries_step. unfold loader_result.
    rewrite (suffix_app stem ext Hext).
    destruct stem as [|b stem]; [reflexivity|].
    destruct ext as [|a ext]; [reflexivity|].
    rewrite lower_dotted.
    destruct (decide (Py.lower (String a ext) = "pdf")) as [Hpdf|Hpdf].
    + rewrite Hpdf.
      destruct (decide _) as [_|Hne]; [reflexivity|].
      contradiction Hne. reflexivity.
    + destruct (decide ("." +:+ Py.lower (String a ext) = ".pdf"))
        as [Heq|_].
      { contradiction Hpdf.
        exact (f_equal (fun t : string =>
                          match t with String _ r => r | "" => "" end) Heq). }
      destruct (decide (Py.lower (String a ext) = "txt")) as [Htxt|Htxt].
      * rewrite Htxt.
        destruct (decide _) as [_|Hne]; [reflexivity|].
        contradiction Hne. reflexivity.
      * destruct (decide ("." +:+ Py.lower (String a ext) = ".txt"))
          as [Heq|_]; [|reflexivity].
        contradiction Htxt.
        exact (f_equal (fun t : string =>
                          match t with String _ r => r | "" => "" end) Heq).
Qed.

End FileNames.

Example stub_entries_named_by_extension_only :
  load_entries (H := Stub.healthy) UPLOAD_FOLDER
    [("pdf", "%PDFone"); (".pdf", "%PDFtwo"); ("notes.", "three");
     ("a.b.TXT", "four"); ("report.Pdf", "%PDFfive")] []
  = Returns [ {| page_content := "four";
                 metadata_source := "uploads/a.b.TXT" |};
              {| page_content := "five";
                 metadata_source := "uploads/report.Pdf" |} ].
Proof. reflexivity. Qed.

(** ** Random session ids ([chat], line 244) *)

Lemma unhex_hex_digits (b : Byte.byte) :
  unhex_digit (Py.hex_digit (Byte.to_N b / 16)) = Some (Byte.to_N b / 16)%N /\
  unhex_digit (Py.hex_digit (Byte.to_N b mod 16))
    = Some (Byte.to_N b mod 16)%N /\
  Byte.of_N (16 * (Byte.to_N b / 16) + Byte.to_N b mod 16) = Some b.
Proof. destruct b; vm_compute; repeat split; reflexivity. Qed.

(** The hexadecimal rendering can be read back. *)
Lemma unhex_hex (bs : list Byte.byte) : unhex (Py.hex bs) = Some bs.
Proof.
  induction bs as [|b bs IH]; [reflexivity|].
  destruct (unhex_hex_digits b) as (Hhi & Hlo & Hbyte).
  change (unhex (Py.hex (b :: bs))) with
    (match unhex_digit (Py.hex_digit (Byte.to_N b / 16)),
           unhex_digit (Py.hex_digit (Byte.to_N b mod 16)),
           unhex (Py.hex bs) with
     | Some hi, Some lo, Some bs' =>
         match Byte.of_N (16 * hi + lo) with
         | Some byte => Some (byte :: bs')
         | None => None
         end
     | _, _, _ => None
     end).
  rewrite Hhi, Hlo, IH, Hbyte. reflexivity.
Qed.

Lemma hex_inj (bs1 bs2 : list Byte.byte) : Py.hex bs1 = Py.hex bs2 -> bs1 = bs2.
Proof.
  intros Heq. apply (f_equal unhex) in Heq. rewrite !unhex_hex in Heq.
  injection Heq as ->. reflexivity.
Qed.

(** X3.  Two chat requests that carry neither a session cookie nor a remote
    address and draw different random bytes resolve to different session
    ids. *)
Theorem random_session_ids_distinct (req1 req2 : ChatRequest)
    (env1 env2 : ChatEnv) :
  Py.truthy_opt (session_cookie req1) = false ->
  Py.truthy_opt (session_cookie req2) = false ->
  Py.truthy_opt (remote_addr req1) = false ->
  Py.truthy_opt (remote_addr req2) = false ->
  os_urandom env1 8 <> os_urandom env2 8 ->
  fst (resolve_session req1 env1) <> fst (resolve_session req2 env2).
Proof.
  intros Hc1 Hc2 Ha1 Ha2 Hdraw. unfold resolve_session.
  rewrite Hc1, Hc2, Ha1, Ha2. simpl. intros Heq. apply Hdraw, hex_inj, Heq.
Qed.

Lemma random_session_ids_distinct_witness :
  os_urandom Stub.env 8 <>
    os_urandom {| os_urandom := fun n => replicate n Byte.x07;
                  process_time_start := 20; process_time_end := 21 |} 8 /\
  fst (resolve_session
         {| json_message := Some "hi"; session_cookie := None;
            remote_addr := None |} Stub.env)
  <> fst (resolve_session
            {| json_message := Some "hi"; session_cookie := Some "";
               remote_addr := Some "" |}
            {| os_urandom := fun n => replicate n Byte.x07;
               process_time_start := 20; process_time_end := 21 |}).
Proof.
  assert (Hdraw : os_urandom Stub.env 8 <>
    os_urandom {| os_urandom := fun n => replicate n Byte.x07;
                  process_time_start := 20; process_time_end := 21 |} 8)
    by (vm_compute; discriminate).
  split; [exact Hdraw|].
  apply random_session_ids_distinct; [reflexivity..|exact Hdraw].
Defined.

(** ** Loading ([load_documents_from_directory], lines 88-100) *)

Section Loading.
Context `{Collaborators}.

(** X5.  In whatever order the directory is listed: when no [.pdf] or
    [.txt] entry of the listing is unreadable, the loop of
    [load_documents_from_directory] returns the documents gathered so far
    followed by the documents of these entries, entry after entry in the
    order of the listing, and skips every entry with another suffix. *)
Theorem load_entries_in_listing_order directory_path entries :
  forall documents,
    (forall name bytes e,
       (name, bytes) ∈ entries ->
       loader_result directory_path name bytes <> Some (Raises e)) ->
    load_entries directory_path entries documents =
      Returns (documents ++ readable_documents directory_path entries).
Proof.
  unfold readable_documents.
  induction entries as [|[name bytes] rest IH]; intros documents Hok.
  - simpl. rewrite app_nil_r. reflexivity.
  - rewrite load_entries_step. simpl.
    assert (Hrest : forall n b e, (n, b) ∈ rest ->
                      loader_result directory_path n b <> Some (Raises e)).
    { intros n b e Hin. apply Hok. right. exact Hin. }
    destruct (loader_result directory_path name bytes) as [[docs|e]|] eqn:Hl.
    + rewrite (IH _ Hrest). simpl. rewrite app_assoc. reflexivity.
    + exfalso. apply (Hok name bytes e); [left|exact Hl].
    + apply IH. exact Hrest.
Qed.

End Loading.

Lemma load_entries_in_listing_order_witness :
  (forall name bytes e,
     (name, bytes) ∈ [("sky.txt", "The sky is blue."); ("cat.png", "PNG");
                      ("grass.txt", "Grass is green.")] ->
     loader_result (H := Stub.healthy) UPLOAD_FOLDER name bytes
       <> Some (Raises e)) /\
  load_entries (H := Stub.healthy) UPLOAD_FOLDER
    [("sky.txt", "The sky is blue."); ("cat.png", "PNG");
     ("grass.txt", "Grass is green.")] []
  = Returns [{| page_content := "The sky is blue.";
                metadata_source := "uploads/sky.txt" |};
             Stub.grass_document].
Proof.
  assert (Hok : forall name bytes e,
     (name, bytes) ∈ [("sky.txt", "The sky is blue."); ("cat.png", "PNG");
                      ("grass.txt", "Grass is green.")] ->
     loader_result (H := Stub.healthy) UPLOAD_FOLDER name bytes
       <> Some (Raises e)).
  { intros name bytes e Hin.
    apply elem_of_cons in Hin as [Hin|Hin];
      [|apply elem_of_cons in Hin as [Hin|Hin];
        [|apply list_elem_of_singleton in Hin]];
      injection Hin as -> ->; vm_compute; discriminate. }
  split; [exact Hok|].
  rewrite (load_entries_in_listing_order (H := Stub.healthy) UPLOAD_FOLDER
             _ [] Hok).
  reflexivity.
Defined.

Example stub_load_mixed_folder :
  load_entries (H := Stub.healthy) UPLOAD_FOLDER
    [("b.TXT", "second"); ("cat.png", "PNG"); ("a.pdf", "%PDFfirst")] []
  = Returns [ {| page_content := "second"; metadata_source := "uploads/b.TXT" |};
              {| page_content := "first"; metadata_source := "uploads/a.pdf" |} ].
Proof. reflexivity. Qed.

(** ** Retrieval and chat ([retrieve_documents], lines 171-199; [chat],
       lines 233-282) *)

Section Conversation.
Context `{Collaborators}.

(** X6.  [retrieve_documents] never raises and never changes the state.  It
    hands back at most four chunk texts; with context the context string is
    these texts joined by a blank line and the response time is the clock
    difference; without (no store, or a failed query) the response time is 0
    and the context is empty. *)
Theorem retrieve_documents_never_raises (s : State) (q : string)
    (env : ChatEnv) :
  exists r,
    retrieve_documents q env s = (Returns r, s) /\
    length (response_context r) <= 4 /\
    match r with
    | Answered _ response_time context => response_time = 0%Z /\ context = []
    | Retrieved context context_str response_time =>
        is_Some (document_store s) /\
        context_str = Py.join (Py.LF +:+ Py.LF) context /\
        response_time = (process_time_end env - process_time_start env)%Z
    end.
Proof.
  unfold retrieve_documents, bind at 1, get.
  destruct (document_store s) as [store|].
  2:{ eexists. split; [reflexivity|]. split; [simpl; lia|]. split; reflexivity. }
  unfold try_except, bind, retriever_invoke, bind, lift, ret.
  destruct (embed_query q) as [v|e].
  2:{ eexists. split; [reflexivity|]. split; [simpl; lia|]. split; reflexivity. }
  eexists. split; [reflexivity|]. split.
  - simpl. rewrite length_fmap, length_take. lia.
  - split; [eexists; reflexivity|]. split; reflexivity.
Qed.

(** X7.  A chat request with a message whose query cannot be embedded, the
    index being in place: the answer is "Error processing query: " followed
    by the exception text, with response time 0 and no context; the user
    turn is recorded, nothing else changes, no prompt is sent to the model,
    and the history in the response is the one from before this message. *)
Theorem chat_retrieval_failure (req : ChatRequest) (env : ChatEnv) (s : State)
    (store : Chroma) (collection : list (Document * Vector)) (e : string) :
  Py.truthy (default "" (json_message req)) = true ->
  document_store s = Some store ->
  chroma_db s = Some collection ->
  embed_query (default "" (json_message req)) = Raises e ->
  chat req env s =
    (Returns
       ({| status := 200;
           body := ChatBody ("Error processing query: " +:+ e) 0 []
                     (content <$> history s (fst (resolve_session req env))) |},
        snd (resolve_session req env)),
     push (fst (resolve_session req env))
          {| type := human; content := default "" (json_message req) |} s).
Proof.
  intros Hmsg Hstore _ Hembed. rewrite (chat_run req env s Hmsg).
  unfold retrieve_documents, bind at 1, get. rewrite Hstore.
  unfold try_except, bind, retriever_invoke, bind, lift, ret.
  rewrite Hembed. reflexivity.
Qed.

(** X8.  A chat request that reaches generation and whose completion call
    returns an ASCII [text]: the prompt sent is built from the turns recorded
    before this message (the message itself goes in the question slot only)
    and is the one prompt added to the call log; the answer is [text]
    stripped of surrounding white space; the user turn and then the answer
    are appended to the session, and the response shows the history
    including both. *)
Theorem chat_generation_success (req : ChatRequest) (env : ChatEnv)
    (s : State) (context : list string) (context_str : string)
    (response_time : Z) (text : string) :
  Py.truthy (default "" (json_message req)) = true ->
  fst (retrieve_documents (default "" (json_message req)) env s)
    = Returns (Retrieved context context_str response_time) ->
  groq_create
    (formatted_prompt (default "" (json_message req)) context_str
       (history s (fst (resolve_session req env)))) = Returns text ->
  is_ascii text = true ->
  exists s',
    chat req env s =
      (Returns
         ({| status := 200;
             body := ChatBody (Py.strip text) response_time context
               (content <$>
                  history s (fst (resolve_session req env)) ++
                  [{| type := human;
                      content := default "" (json_message req) |};
                   {| type := ai; content := Py.strip text |}]) |},
          snd (resolve_session req env)), s') /\
    groq_calls s' =
      groq_calls s ++
      [formatted_prompt (default "" (json_message req)) context_str
         (history s (fst (resolve_session req env)))] /\
    history s' (fst (resolve_session req env)) =
      history s (fst (resolve_session req env)) ++
      [{| type := human; content := default "" (json_message req) |};
       {| type := ai; content := Py.strip text |}].
Proof.
  intros Hmsg Hretrieved Htext _.
  set (sid := fst (resolve_session req env)) in *.
  set (u := {| type := human; content := default "" (json_message req) |}).
  set (a := {| type := ai; content := Py.strip text |}).
  pose proof (chat_run req env s Hmsg) as Hrun. cbv zeta in Hrun.
  rewrite Hretrieved in Hrun. fold sid u in Hrun.
  unfold answer_for in Hrun. rewrite Htext in Hrun. fold a in Hrun.
  set (s' := push sid a _) in Hrun.
  assert (Hturns : history s' sid = history s sid ++ [u; a]).
  { unfold s'. rewrite history_push.
    change (history (set_groq_calls ?g ?s1) ?i) with (history s1 i).
    rewrite history_push, <- app_assoc. reflexivity. }
  exists s'. split; [|split].
  - rewrite Hrun, Hturns. reflexivity.
  - reflexivity.
  - exact Hturns.
Qed.

Lemma push_frame session_id msg (s : State) :
  uploads (push session_id msg s) = uploads s /\
  chroma_db (push session_id msg s) = chroma_db s /\
  document_store (push session_id msg s) = document_store s /\
  embeddings (push session_id msg s) = embeddings s /\
  text_splitter (push session_id msg s) = text_splitter s /\
  groq_calls (push session_id msg s) = groq_calls s.
Proof. repeat split. Qed.

Lemma chat_returns (req : ChatRequest) (env : ChatEnv) (s : State) :
  exists resp cookie s',
    chat req env s = (Returns (resp, cookie), s') /\
    (status resp = 200 \/ status resp = 400) /\
    uploads s' = uploads s /\ chroma_db s' = chroma_db s /\
    document_store s' = document_store s /\
    embeddings s' = embeddings s /\ text_splitter s' = text_splitter s /\
    (groq_calls s' = groq_calls s \/
     exists prompt, groq_calls s' = groq_calls s ++ [prompt]) /\
    forall other,
      fst (resolve_session req env) <> other ->
      history s' other = history s other.
Proof.
  destruct (Py.truthy (default "" (json_message req))) eqn:Hmsg.
  2:{ unfold chat. rewrite Hmsg. eexists _, _, _.
      split; [reflexivity|]. split; [right; reflexivity|].
      repeat split; try reflexivity. left. reflexivity. }
  rewrite (chat_run req env s Hmsg).
  destruct (retrieve_documents_returns s (default "" (json_message req)) env)
    as [r Hr].
  rewrite Hr. simpl fst. destruct r as [answer rt ctx|ctx cstr rt].
  - eexists _, _, _. split; [reflexivity|]. split; [left; reflexivity|].
    repeat split; try reflexivity; [left; reflexivity|].
    intros other Hne. apply history_push_other. exact Hne.
  - eexists _, _, _. split; [reflexivity|]. split; [left; reflexivity|].
    repeat split; try reflexivity; [right; eexists; reflexivity|].
    intros other Hne. rewrite history_push_other by exact Hne.
    change (history (set_groq_calls ?g ?s1) ?i) with (history s1 i).
    apply history_push_other. exact Hne.
Qed.

(** X9.  The state a chat request leaves behind has the upload folder, the
    persist directory, [document_store] and the two component globals as
    they were, at most one more prompt in the call log, and the turns of
    every session other than the one the request resolves to unchanged; a
    response that [chat] returns has status 200 or 400. *)
Theorem chat_leaves_index_and_other_sessions (req : ChatRequest)
    (env : ChatEnv) (s : State) :
  uploads (snd (chat req env s)) = uploads s /\
  chroma_db (snd (chat req env s)) = chroma_db s /\
  document_store (snd (chat req env s)) = document_store s /\
  embeddings (snd (chat req env s)) = embeddings s /\
  text_splitter (snd (chat req env s)) = text_splitter s /\
  (groq_calls (snd (chat req env s)) = groq_calls s \/
   exists prompt, groq_calls (snd (chat req env s)) = groq_calls s ++ [prompt])
  /\
  (forall other,
     fst (resolve_session req env) <> other ->
     history (snd (chat req env s)) other = history s other) /\
  (forall resp cookie s',
     chat req env s = (Returns (resp, cookie), s') ->
     status resp = 200 \/ status resp = 400).
Proof.
  destruct (chat_returns req env s)
    as (resp & cookie & s' & Hrun & Hstatus & Hu & Hc & Hd & He & Ht & Hg & Hh).
  rewrite Hrun. simpl snd.
  repeat (split; [assumption|]).
  intros resp' cookie' s'' [= <- _ _]. exact Hstatus.
Qed.

Lemma chat_document_store (req : ChatRequest) (env : ChatEnv) (s : State) :
  document_store (snd (chat req env s)) = document_store s.
Proof.
  destruct (Py.truthy (default "" (json_message req))) eqn:Hmsg.
  2:{ unfold chat. rewrite Hmsg. reflexivity. }
  rewrite (chat_run req env s Hmsg).
  destruct (fst (retrieve_documents _ env s)) as [[answer rt ctx|ctx cstr rt]|e];
    reflexivity.
Qed.

End Conversation.

Lemma chat_retrieval_failure_witness :
  Py.truthy (default "" (Some "What color is the sky?")) = true /\
  document_store Stub.indexed_state = Some Stub.sky_store /\
  chroma_db Stub.indexed_state = Some [Stub.sky_chunk] /\
  embed_query (Collaborators := Stub.over_quota) "What color is the sky?"
    = Raises "429 embedding quota exceeded" /\
  chat (H := Stub.over_quota)
    {| json_message := Some "What color is the sky?";
       session_cookie := None; remote_addr := Some "203.0.113.7" |}
    Stub.env Stub.indexed_state =
    (Returns
       ({| status := 200;
           body := ChatBody
                     "Error processing query: 429 embedding quota exceeded"
                     0 [] [] |}, Some "203.0.113.7"),
     push "203.0.113.7"
          {| type := human; content := "What color is the sky?" |}
          Stub.indexed_state).
Proof.
  split; [reflexivity|]. split; [vm_compute; reflexivity|].
  split; [vm_compute; reflexivity|]. split; [vm_compute; reflexivity|].
  rewrite (chat_retrieval_failure (H := Stub.over_quota)
             {| json_message := Some "What color is the sky?";
                session_cookie := None; remote_addr := Some "203.0.113.7" |}
             Stub.env Stub.indexed_state Stub.sky_store [Stub.sky_chunk]
             "429 embedding quota exceeded");
    vm_compute; reflexivity.
Defined.

Lemma chat_generation_success_witness :
  Py.truthy (default "" (Some "What color is the sky?")) = true /\
  fst (retrieve_documents (H := Stub.healthy) "What color is the sky?"
         Stub.env Stub.indexed_state)
    = Returns (Retrieved ["The sky is blue."] "The sky is blue." 3) /\
  groq_create (Collaborators := Stub.healthy)
    (formatted_prompt "What color is the sky?" "The sky is blue."
       (history Stub.indexed_state "203.0.113.7"))
    = Returns (" The sky is blue. " +:+ Py.LF) /\
  is_ascii (" The sky is blue. " +:+ Py.LF) = true /\
  exists s',
    fst (chat (H := Stub.healthy)
           {| json_message := Some "What color is the sky?";
              session_cookie := None; remote_addr := Some "203.0.113.7" |}
           Stub.env Stub.indexed_state)
    = Returns
        ({| status := 200;
            body := ChatBody "The sky is blue." 3 ["The sky is blue."]
                      ["What color is the sky?"; "The sky is blue."] |},
         Some "203.0.113.7") /\
    groq_calls s' =
      [formatted_prompt "What color is the sky?" "The sky is blue." []].
Proof.
  split; [reflexivity|].
  split; [vm_compute; reflexivity|].
  split; [vm_compute; reflexivity|].
  split; [reflexivity|].
  destruct (chat_generation_success (H := Stub.healthy)
              {| json_message := Some "What color is the sky?";
                 session_cookie := None; remote_addr := Some "203.0.113.7" |}
              Stub.env Stub.indexed_state
              ["The sky is blue."] "The sky is blue." 3
              (" The sky is blue. " +:+ Py.LF))
    as (s' & Hrun & Hcalls & _);
    [reflexivity|vm_compute; reflexivity|vm_compute; reflexivity
    |reflexivity|].
  exists s'. split.
  - rewrite Hrun. vm_compute. reflexivity.
  - rewrite Hcalls. vm_compute. reflexivity.
Defined.

(** ** Uploads ([upload_files], lines 205-231) *)

Section UploadOutcomes.
Context `{Collaborators}.

(** X10.  An upload in which no file has a name, an upload without any file
    included, is answered 400 and changes nothing: the files of the previous
    batch stay in the folder. *)
Theorem upload_nothing_selected (files : list FileStorage) (s : State) :
  (forall file, file ∈ files -> filename file = "") ->
  exists resp, upload_files files s = (Returns resp, s) /\ status resp = 400.
Proof.
  intros Hempty. unfold upload_files. destruct files as [|file rest].
  { eexists. split; reflexivity. }
  assert (Hgate : forallb (fun f => negb (Py.truthy (filename f)))
                    (file :: rest) = true).
  { apply forallb_forall. intros f Hin. apply list_elem_of_In in Hin.
    rewrite (Hempty f Hin). reflexivity. }
  rewrite Hgate. eexists. split; reflexivity.
Qed.

Lemma saved_names_cons (file : FileStorage) (rest : list FileStorage) :
  saved_names (file :: rest) =
    if accepted file
    then secure_filename (filename file) :: saved_names rest
    else saved_names rest.
Proof.
  unfold saved_names. destruct (accepted file) eqn:Hacc.
  - rewrite filter_cons_True by (rewrite Hacc; exact I). reflexivity.
  - rewrite filter_cons_False by (rewrite Hacc; exact id). reflexivity.
Qed.

(** The names the saving loop returns. *)
Lemma save_files_names (files : list FileStorage) :
  forall uploaded_files s names s1,
    save_files files uploaded_files s = (Returns names, s1) ->
    names = uploaded_files ++ saved_names files.
Proof.
  induction files as [|file rest IH]; intros acc s names s1.
  - simpl. intros [= <- _]. unfold saved_names. simpl.
    rewrite app_nil_r. reflexivity.
  - rewrite saved_names_cons. simpl. fold (accepted file).
    destruct (accepted file).
    + unfold bind at 1, file_save.
      destruct (Py.truthy (secure_filename (filename file)));
        [|unfold raise; discriminate].
      unfold modify. intros Hrun. apply IH in Hrun.
      rewrite Hrun, <- app_assoc. reflexivity.
    + apply IH.
Qed.

(** X11.  An upload answered 200 reports the secure names of the accepted
    files in submission order, and its message counts these names, a name
    submitted twice being counted twice. *)
Theorem upload_success_body (files : list FileStorage) (s s' : State)
    (resp : Response) :
  upload_files files s = (Returns resp, s') ->
  status resp = 200 ->
  body resp =
    UploadBody ("Successfully uploaded and processed " +:+
                pretty (length (saved_names files)) +:+ " files")
               (saved_names files) /\
  saved_names files <> [].
Proof.
  intros Hrun Hok.
  destruct (forallb (fun file => negb (Py.truthy (filename file))) files)
    eqn:Hgate.
  { unfold upload_files in Hrun. rewrite Hgate in Hrun.
    destruct files; injection Hrun as <- _; discriminate Hok. }
  rewrite (upload_files_selected files s Hgate) in Hrun.
  unfold bind at 1 in Hrun.
  destruct (save_files files [] (set_uploads ∅ s)) as [[names|e] s1] eqn:Hsave;
    [|discriminate Hrun].
  apply save_files_names in Hsave. simpl in Hsave. subst names.
  destruct (saved_names files) as [|name names] eqn:Hnames.
  { injection Hrun as <- _. discriminate Hok. }
  unfold bind at 1 in Hrun.
  destruct (process_documents s1) as [[[]|e] s2]; [| |discriminate Hrun].
  - injection Hrun as <- _. split; [reflexivity|discriminate].
  - injection Hrun as <- _. discriminate Hok.
Qed.

Lemma process_documents_uploads (s : State) :
  uploads (snd (process_documents s)) = uploads s.
Proof.
  rewrite process_documents_run.
  destruct (load_entries _ _ _) as [[|d ds]|e]; try reflexivity.
  destruct (chroma_open _ _); [|reflexivity].
  destruct (embed_all _); reflexivity.
Qed.

(** Whatever [upload_files] returns once a file is selected, the folder
    holds what the saving loop stored in the emptied folder. *)
Lemma upload_files_folder (files : list FileStorage) (s s' : State)
    (resp : Response) :
  forallb (fun file => negb (Py.truthy (filename file))) files = false ->
  upload_files files s = (Returns resp, s') ->
  uploads s' = stored files ∅.
Proof.
  intros Hgate Hrun. rewrite (upload_files_selected files s Hgate) in Hrun.
  unfold bind at 1 in Hrun.
  destruct (save_files files [] (set_uploads ∅ s)) as [[names|e] s1] eqn:Hsave;
    [|discriminate Hrun].
  apply save_files_returns in Hsave. simpl uploads in Hsave.
  assert (Hfolder : uploads s1 = stored files ∅) by (subst s1; reflexivity).
  destruct names as [|name names].
  { injection Hrun as _ <-. exact Hfolder. }
  unfold bind at 1 in Hrun.
  pose proof (process_documents_uploads s1) as Hkept.
  destruct (process_documents s1) as [[[]|e] s2]; [| |discriminate Hrun];
    injection Hrun as _ <-; simpl in Hkept; congruence.
Qed.

(** X12.  When [upload_files] itself returns its 500 response "Failed to
    process documents" (it returns it; it does not raise): the folder was
    emptied and holds the accepted files of this batch, at least one, none
    of which gave a document; the persist directory and [document_store]
    are those from before the upload. *)
Theorem upload_failed_to_process (files : list FileStorage) (s s' : State) :
  upload_files files s =
    (Returns {| status := 500;
                body := ErrorBody "Failed to process documents" |}, s') ->
  uploads s' = stored files ∅ /\
  saved_names files <> [] /\
  load_entries UPLOAD_FOLDER (listdir (stored files ∅)) [] = Returns [] /\
  chroma_db s' = chroma_db s /\
  document_store s' = document_store s.
Proof.
  intros Hrun.
  destruct (forallb (fun file => negb (Py.truthy (filename file))) files)
    eqn:Hgate.
  { unfold upload_files in Hrun. rewrite Hgate in Hrun.
    destruct files; discriminate Hrun. }
  rewrite (upload_files_selected files s Hgate) in Hrun.
  unfold bind at 1 in Hrun.
  destruct (save_files files [] (set_uploads ∅ s)) as [[names|e] s1] eqn:Hsave;
    [|discriminate Hrun].
  pose proof (save_files_names _ _ _ _ _ Hsave) as Hnames. simpl in Hnames.
  apply save_files_returns in Hsave. simpl uploads in Hsave.
  destruct names as [|name names]; [discriminate Hrun|].
  unfold bind at 1 in Hrun. rewrite process_documents_run in Hrun.
  assert (Hfolder : uploads s1 = stored files ∅) by (subst s1; reflexivity).
  rewrite Hfolder in Hrun.
  destruct (load_entries UPLOAD_FOLDER (listdir (stored files ∅)) [])
    as [[|d ds]|e]; [| |discriminate Hrun].
  - injection Hrun as <-. subst s1. split; [reflexivity|].
    split; [rewrite <- Hnames; discriminate|]. repeat split.
  - destruct (chroma_open _ _); [|discriminate Hrun].
    destruct (embed_all _); discriminate Hrun.
Qed.

Lemma stored_cons (file : FileStorage) (rest : list FileStorage)
    (folder : gmap string string) :
  stored (file :: rest) folder =
    if accepted file
    then stored rest (<[secure_filename (filename file) := stream file]> folder)
    else stored rest folder.
Proof. reflexivity. Qed.

Lemma stored_app (files1 files2 : list FileStorage) :
  forall folder,
    stored (files1 ++ files2) folder = stored files2 (stored files1 folder).
Proof.
  induction files1 as [|file rest IH]; intros folder; [reflexivity|].
  rewrite <- app_comm_cons, !stored_cons.
  destruct (accepted file); apply IH.
Qed.

Lemma stored_lookup_other (files : list FileStorage) (name : string) :
  forall folder,
    (forall file, file ∈ files -> accepted file = true ->
                  secure_filename (filename file) <> name) ->
    stored files folder !! name = folder !! name.
Proof.
  induction files as [|file rest IH]; intros folder Hother; [reflexivity|].
  assert (Hrest : forall f, f ∈ rest -> accepted f = true ->
                            secure_filename (filename f) <> name).
  { intros f Hin. apply Hother. right. exact Hin. }
  rewrite stored_cons. destruct (accepted file) eqn:Hacc.
  - rewrite (IH _ Hrest). apply lookup_insert_ne.
    apply Hother; [left|exact Hacc].
  - apply IH. exact Hrest.
Qed.

Lemma stored_holds_saved_names (files : list FileStorage) (name : string) :
  forall folder,
    is_Some (stored files folder !! name) <->
    name ∈ saved_names files \/ is_Some (folder !! name).
Proof.
  induction files as [|file rest IH]; intros folder.
  - simpl. unfold saved_names. simpl. split; [auto|].
    intros [Hin|Hsome]; [inversion Hin|exact Hsome].
  - rewrite stored_cons, saved_names_cons. destruct (accepted file).
    + rewrite IH, elem_of_cons.
      destruct (decide (secure_filename (filename file) = name)) as [<-|Hne].
      * rewrite lookup_insert_eq. split; [|eauto].
        intros _. left. left. reflexivity.
      * rewrite lookup_insert_ne by exact Hne. split.
        -- intros [Hin|Hsome]; auto.
        -- intros [[Heq|Hin]|Hsome]; auto. congruence.
    + apply IH.
Qed.

(** X13.  When [upload_files] returns and several accepted files of the
    upload got the same secure name, the folder holds under that name the
    content of the last of them. *)
Theorem upload_last_file_wins (before after : list FileStorage)
    (file : FileStorage) (s s' : State) (resp : Response) :
  upload_files (before ++ file :: after) s = (Returns resp, s') ->
  accepted file = true ->
  (forall later, later ∈ after -> accepted later = true ->
     secure_filename (filename later) <> secure_filename (filename file)) ->
  uploads s' !! secure_filename (filename file) = Some (stream file).
Proof.
  intros Hrun Hacc Hlast.
  assert (Hgate : forallb (fun f => negb (Py.truthy (filename f)))
                    (before ++ file :: after) = false).
  { apply some_file_selected. exists file. split.
    - apply elem_of_app. right. left.
    - unfold accepted in Hacc. apply andb_true_iff in Hacc as [Htruthy _].
      exact Htruthy. }
  rewrite (upload_files_folder _ s s' resp Hgate Hrun).
  rewrite stored_app, stored_cons, Hacc.
  rewrite (stored_lookup_other after _ _ Hlast). apply lookup_insert_eq.
Qed.

(** X14.  After an upload that [upload_files] answers with the list of
    uploaded files, the folder holds exactly the names in that list. *)
Theorem upload_folder_holds_reported_names (files : list FileStorage)
    (s s' : State) (resp : Response) (message : string)
    (names : list string) :
  upload_files files s = (Returns resp, s') ->
  body resp = UploadBody message names ->
  forall name, is_Some (uploads s' !! name) <-> name ∈ names.
Proof.
  intros Hrun Hbody name.
  destruct (forallb (fun file => negb (Py.truthy (filename file))) files)
    eqn:Hgate.
  { unfold upload_files in Hrun. rewrite Hgate in Hrun.
    destruct files; injection Hrun as <- _; discriminate Hbody. }
  rewrite (upload_files_folder files s s' resp Hgate Hrun).
  rewrite (upload_files_selected files s Hgate) in Hrun.
  unfold bind at 1 in Hrun.
  destruct (save_files files [] (set_uploads ∅ s)) as [[saved|e] s1] eqn:Hsave;
    [|discriminate Hrun].
  apply save_files_names in Hsave. simpl in Hsave. subst saved.
  assert (Hnames : names = saved_names files).
  { destruct (saved_names files) as [|n ns].
    { injection Hrun as <- _. discriminate Hbody. }
    unfold bind at 1 in Hrun.
    destruct (process_documents s1) as [[[]|e] s2]; [| |discriminate Hrun];
      injection Hrun as <- _; [|discriminate Hbody].
    injection Hbody as _ <-. reflexivity. }
  rewrite Hnames, stored_holds_saved_names, lookup_empty. split.
  - intros [Hin|[x Hx]]; [exact Hin|discriminate Hx].
  - auto.
Qed.

End UploadOutcomes.

Lemma upload_nothing_selected_witness :
  (forall file, file ∈ [{| filename := ""; stream := "" |}] ->
                filename file = "") /\
  exists resp,
    upload_files (H := Stub.healthy) [{| filename := ""; stream := "" |}]
      Stub.indexed_state = (Returns resp, Stub.indexed_state) /\
    status resp = 400.
Proof.
  assert (Hempty : forall file,
            file ∈ [{| filename := ""; stream := "" |}] -> filename file = "").
  { intros file Hin. apply list_elem_of_singleton in Hin as ->. reflexivity. }
  split; [exact Hempty|].
  exact (upload_nothing_selected (H := Stub.healthy) _ Stub.indexed_state
           Hempty).
Defined.

Lemma upload_success_body_witness :
  upload_files (H := Stub.healthy) [Stub.sky; Stub.picture; Stub.sky]
    initial_state =
    (Returns {| status := 200;
                body := UploadBody "Successfully uploaded and processed 2 files"
                                   ["sky.txt"; "sky.txt"] |},
     Stub.indexed_state) /\
  UploadBody "Successfully uploaded and processed 2 files"
             ["sky.txt"; "sky.txt"] =
    UploadBody ("Successfully uploaded and processed " +:+
                pretty (length (saved_names (H := Stub.healthy)
                                  [Stub.sky; Stub.picture; Stub.sky])) +:+
                " files")
               (saved_names (H := Stub.healthy)
                  [Stub.sky; Stub.picture; Stub.sky]).
Proof.
  split; [vm_compute; reflexivity|].
  destruct (upload_success_body (H := Stub.healthy)
              [Stub.sky; Stub.picture; Stub.sky] initial_state
              Stub.indexed_state
              {| status := 200;
                 body := UploadBody
                           "Successfully uploaded and processed 2 files"
                           ["sky.txt"; "sky.txt"] |})
    as [Hbody _]; [vm_compute; reflexivity|reflexivity|].
  exact Hbody.
Defined.

Lemma upload_failed_to_process_witness :
  upload_files (H := Stub.paged)
    [{| filename := "blank.pdf"; stream := "%PDF" |}] Stub.indexed_state =
    (Returns {| status := 500;
                body := ErrorBody "Failed to process documents" |},
     Stub.indexed_with {[ "blank.pdf" := "%PDF" ]}) /\
  chroma_db (Stub.indexed_with {[ "blank.pdf" := "%PDF" ]})
    = chroma_db Stub.indexed_state.
Proof.
  split; [vm_compute; reflexivity|].
  destruct (upload_failed_to_process (H := Stub.paged)
              [{| filename := "blank.pdf"; stream := "%PDF" |}]
              Stub.indexed_state
              (Stub.indexed_with {[ "blank.pdf" := "%PDF" ]}))
    as (_ & _ & _ & Hdb & _); [vm_compute; reflexivity|].
  exact Hdb.
Defined.

Lemma upload_last_file_wins_witness :
  upload_files (H := Stub.healthy)
    ([Stub.sky] ++
     {| filename := "sky.txt"; stream := "The sky is grey." |} ::
     [Stub.picture]) initial_state =
    (Returns {| status := 200;
                body := UploadBody "Successfully uploaded and processed 2 files"
                                   ["sky.txt"; "sky.txt"] |},
     Stub.after
       (upload_files (H := Stub.healthy)
          ([Stub.sky] ++
           {| filename := "sky.txt"; stream := "The sky is grey." |} ::
           [Stub.picture])) initial_state) /\
  uploads
    (Stub.after
       (upload_files (H := Stub.healthy)
          ([Stub.sky] ++
           {| filename := "sky.txt"; stream := "The sky is grey." |} ::
           [Stub.picture])) initial_state) !! "sky.txt"
  = Some "The sky is grey.".
Proof.
  split; [vm_compute; reflexivity|].
  apply (upload_last_file_wins (H := Stub.healthy) [Stub.sky] [Stub.picture]
           {| filename := "sky.txt"; stream := "The sky is grey." |}
           initial_state _
           {| status := 200;
              body := UploadBody "Successfully uploaded and processed 2 files"
                                 ["sky.txt"; "sky.txt"] |}).
  - vm_compute. reflexivity.
  - reflexivity.
  - intros later Hin Hacc. apply list_elem_of_singleton in Hin as ->.
    discriminate Hacc.
Defined.

Lemma upload_folder_holds_reported_names_witness :
  upload_files (H := Stub.healthy) [Stub.sky; Stub.picture; Stub.sky]
    initial_state =
    (Returns {| status := 200;
                body := UploadBody "Successfully uploaded and processed 2 files"
                                   ["sky.txt"; "sky.txt"] |},
     Stub.indexed_state) /\
  forall name,
    is_Some (uploads Stub.indexed_state !! name) <->
    name ∈ ["sky.txt"; "sky.txt"].
Proof.
  split; [vm_compute; reflexivity|].
  apply (upload_folder_holds_reported_names (H := Stub.healthy)
           [Stub.sky; Stub.picture; Stub.sky] initial_state Stub.indexed_state
           {| status := 200;
              body := UploadBody "Successfully uploaded and processed 2 files"
                                 ["sky.txt"; "sky.txt"] |}
           "Successfully uploaded and processed 2 files");
    [vm_compute; reflexivity|reflexivity].
Defined.

(** ** What an upload leaves alone, and the status endpoint ([status],
       lines 284-297) *)

Section Lifetime.
Context `{Collaborators}.

Lemma save_files_frame (files : list FileStorage) :
  forall uploaded_files s,
    groq_calls (snd (save_files files uploaded_files s)) = groq_calls s /\
    document_store (snd (save_files files uploaded_files s))
      = document_store s.
Proof.
  induction files as [|file rest IH]; intros acc s; simpl; [split; reflexivity|].
  destruct (Py.truthy (filename file) && allowed_file (filename file));
    [|apply IH].
  unfold bind, file_save.
  destruct (Py.truthy (secure_filename (filename file)));
    [|split; reflexivity].
  unfold modify. exact (IH _ (set_uploads _ s)).
Qed.

Lemma process_documents_frame (s : State) :
  groq_calls (snd (process_documents s)) = groq_calls s /\
  (is_Some (document_store s) ->
   is_Some (document_store (snd (process_documents s)))).
Proof.
  rewrite process_documents_run.
  destruct (load_entries _ _ _) as [[|d ds]|e]; try (split; [reflexivity|auto]).
  destruct (chroma_open _ _); [|split; [reflexivity|auto]].
  destruct (embed_all _); (split; [reflexivity|]); simpl; eauto.
Qed.

Lemma upload_files_frame (files : list FileStorage) (s : State) :
  groq_calls (snd (upload_files files s)) = groq_calls s /\
  (is_Some (document_store s) ->
   is_Some (document_store (snd (upload_files files s)))).
Proof.
  destruct (upload_files files s) as [o s2] eqn:Hup. simpl.
  destruct (forallb (fun file => negb (Py.truthy (filename file))) files)
    eqn:Hgate.
  { unfold upload_files in Hup. rewrite Hgate in Hup.
    destruct files; injection Hup as _ <-; split; auto. }
  rewrite (upload_files_selected files s Hgate) in Hup.
  unfold bind at 1 in Hup.
  pose proof (save_files_frame files [] (set_uploads ∅ s)) as [Hcalls Hstore].
  destruct (save_files files [] (set_uploads ∅ s)) as [[names|e] s1];
    simpl in Hcalls, Hstore.
  2:{ injection Hup as _ <-. split; [exact Hcalls|]. rewrite Hstore. auto. }
  destruct names as [|name names].
  { injection Hup as _ <-. split; [exact Hcalls|]. rewrite Hstore. auto. }
  unfold bind at 1 in Hup.
  pose proof (process_documents_frame s1) as [Hcalls' Hstore'].
  destruct (process_documents s1) as [[[]|e] s3]; simpl in *;
    injection Hup as _ <-; (split; [congruence|]);
    intros Hsome; apply Hstore'; rewrite Hstore; exact Hsome.
Qed.

(** X15.  An upload, whether it returns or raises, changes no session's
    turns and sends nothing to the model. *)
Theorem upload_leaves_conversations (files : list FileStorage) (s : State) :
  (forall session_id,
     history (snd (upload_files files s)) session_id = history s session_id) /\
  groq_calls (snd (upload_files files s)) = groq_calls s.
Proof.
  split.
  - intros session_id. unfold history. rewrite upload_files_redis.
    reflexivity.
  - apply upload_files_frame.
Qed.

Lemma handle_document_store (r : Request) (s : State) :
  is_Some (document_store s) -> is_Some (document_store (handle r s)).
Proof.
  destruct r as [req env|files]; simpl.
  - rewrite chat_document_store. auto.
  - apply upload_files_frame.
Qed.

Lemma serve_document_store (requests : list Request) :
  forall s, is_Some (document_store s) ->
            is_Some (document_store (serve requests s)).
Proof.
  induction requests as [|r rest IH]; intros s Hsome; simpl; [exact Hsome|].
  apply IH, handle_document_store, Hsome.
Qed.

(** X16.  Once an upload has been answered 200, [status] reports
    [documents_loaded] as true after any further chat and upload requests,
    failed ones included; it reports Redis as connected exactly when the
    ping returns true, a raising ping counting as not connected; the
    extensions come in whatever order the set is listed in; and it changes
    nothing. *)
Theorem documents_loaded_forever (files : list FileStorage) (s s1 : State)
    (resp : Response) (later : list Request) (ping : outcome bool)
    (listed : list string) :
  upload_files files s = (Returns resp, s1) ->
  status resp = 200 ->
  Health.status ping listed (serve later s1) =
    (Returns {| documents_loaded := true;
                redis_connected :=
                  match ping with Returns ok => ok | Raises _ => false end;
                upload_folder := "uploads";
                allowed_extensions := listed |},
     serve later s1).
Proof.
  intros Hrun Hok.
  destruct (successful_upload_replaces_index files s s1 resp Hrun Hok)
    as (chunks & indexed & _ & _ & _ & _ & Hstore & _).
  assert (Hlater : is_Some (document_store (serve later s1))).
  { apply serve_document_store. rewrite Hstore. eauto. }
  destruct Hlater as [store Hlater].
  unfold Health.status, bind, try_except, lift, get, ret.
  destruct ping as [ok|e]; rewrite Hlater; reflexivity.
Qed.

End Lifetime.

Lemma documents_loaded_forever_witness :
  upload_files (H := Stub.healthy) [Stub.sky] initial_state =
    (Returns {| status := 200;
                body := UploadBody "Successfully uploaded and processed 1 files"
                                   ["sky.txt"] |},
     Stub.indexed_state) /\
  fst (Health.status (Raises "Connection refused") ["txt"; "pdf"]
         (serve (H := Stub.healthy)
            [UploadRequested [Stub.broken_pdf];
             ChatRequested
               {| json_message := Some "What color is the sky?";
                  session_cookie := None;
                  remote_addr := Some "203.0.113.7" |} Stub.env]
            Stub.indexed_state))
  = Returns {| documents_loaded := true; redis_connected := false;
               upload_folder := "uploads";
               allowed_extensions := ["txt"; "pdf"] |}.
Proof.
  split; [vm_compute; reflexivity|].
  rewrite (documents_loaded_forever (H := Stub.healthy)
             [Stub.sky] initial_state Stub.indexed_state
             {| status := 200;
                body := UploadBody
                          "Successfully uploaded and processed 1 files"
                          ["sky.txt"] |});
    [reflexivity|vm_compute; reflexivity|reflexivity].
Defined.

(** ** Transcripts ([chat], lines 247-275) *)

Section Transcripts.
Context `{Collaborators}.

Lemma answers_follow_questions_user (turns : list Message) (u : Message) :
  type u = human ->
  answers_follow_questions turns -> answers_follow_questions (turns ++ [u]).
Proof.
  intros Hu Hturns i a Hlook Ha.
  destruct (decide (i < length turns)) as [Hlt|Hge].
  - rewrite lookup_app_l in Hlook by exact Hlt.
    destruct (Hturns i a Hlook Ha) as (j & u' & -> & Hj & Hu').
    exists j, u'. split; [reflexivity|]. split; [|exact Hu'].
    rewrite lookup_app_l by lia. exact Hj.
  - rewrite lookup_app_r in Hlook by lia.
    destruct (i - length turns) as [|k]; [|destruct k; discriminate Hlook].
    injection Hlook as <-. congruence.
Qed.

Lemma answers_follow_questions_exchange (turns : list Message)
    (u a : Message) :
  type u = human ->
  answers_follow_questions turns ->
  answers_follow_questions (turns ++ [u; a]).
Proof.
  intros Hu Hturns i m Hlook Hm.
  destruct (decide (i < length turns)) as [Hlt|Hge].
  - rewrite lookup_app_l in Hlook by exact Hlt.
    destruct (Hturns i m Hlook Hm) as (j & u' & -> & Hj & Hu').
    exists j, u'. split; [reflexivity|]. split; [|exact Hu'].
    rewrite lookup_app_l by lia. exact Hj.
  - rewrite lookup_app_r in Hlook by lia.
    destruct (i - length turns) as [|[|k]] eqn:Hi.
    + injection Hlook as <-. congruence.
    + exists (length turns), u. split; [lia|]. split; [|exact Hu].
      rewrite lookup_app_r by lia. rewrite Nat.sub_diag. reflexivity.
    + discriminate Hlook.
Qed.

(** What one chat request adds to a session: nothing, the user turn, or the
    user turn and the assistant turn. *)
Lemma chat_history_appends (req : ChatRequest) (env : ChatEnv) (s : State)
    (session_id : string) :
  exists extra,
    history (snd (chat req env s)) session_id = history s session_id ++ extra /\
    (extra = [] \/
     (exists u, extra = [u] /\ type u = human) \/
     (exists u a, extra = [u; a] /\ type u = human /\ type a = ai)).
Proof.
  destruct (Py.truthy (default "" (json_message req))) eqn:Hmsg.
  2:{ unfold chat. rewrite Hmsg. exists []. rewrite app_nil_r. auto. }
  rewrite (chat_run req env s Hmsg).
  set (sid := fst (resolve_session req env)).
  set (u := {| type := human; content := default "" (json_message req) |}).
  destruct (decide (sid = session_id)) as [<-|Hne].
  - destruct (fst (retrieve_documents _ env s))
      as [[answer rt ctx|ctx cstr rt]|e]; simpl snd.
    + exists [u]. rewrite history_push. split; [reflexivity|].
      right. left. exists u. auto.
    + eexists [u; _]. rewrite history_push.
      change (history (set_groq_calls ?g ?s1) ?i) with (history s1 i).
      rewrite history_push, <- app_assoc. split; [reflexivity|].
      right. right. eexists _, _. split; [reflexivity|]. split; reflexivity.
    + exists [u]. rewrite history_push. split; [reflexivity|].
      right. left. exists u. auto.
  - exists []. rewrite app_nil_r. split; [|left; reflexivity].
    destruct (fst (retrieve_documents _ env s))
      as [[answer rt ctx|ctx cstr rt]|e]; simpl snd;
      rewrite ?history_push_other by exact Hne; try reflexivity.
    change (history (set_groq_calls ?g ?s1) ?i) with (history s1 i).
    apply history_push_other. exact Hne.
Qed.

Lemma handle_answers_follow_questions (r : Request) (s : State) :
  (forall session_id, answers_follow_questions (history s session_id)) ->
  forall session_id, answers_follow_questions (history (handle r s) session_id).
Proof.
  intros Hinv session_id. destruct r as [req env|files]; simpl.
  - destruct (chat_history_appends req env s session_id)
      as (extra & -> & [->|[(u & -> & Hu)|(u & a & -> & Hu & _)]]).
    + rewrite app_nil_r. apply Hinv.
    + apply answers_follow_questions_user; [exact Hu|apply Hinv].
    + apply answers_follow_questions_exchange; [exact Hu|apply Hinv].
  - unfold history. rewrite upload_files_redis. apply Hinv.
Qed.

(** X17.  In every session's transcript an assistant turn directly follows a
    user turn; no sequence of chat and upload requests breaks this, whether
    the requests succeed or fail.  (A user turn need not be followed by an
    assistant turn: a request answered without generation records the user
    turn alone.) *)
Theorem answers_always_follow_questions (requests : list Request) :
  forall s,
    (forall session_id, answers_follow_questions (history s session_id)) ->
    forall session_id,
      answers_follow_questions (history (serve requests s) session_id).
Proof.
  induction requests as [|r rest IH]; intros s Hinv; simpl; [exact Hinv|].
  apply IH, handle_answers_follow_questions, Hinv.
Qed.

End Transcripts.

Lemma answers_always_follow_questions_witness :
  (forall session_id,
     answers_follow_questions (history initial_state session_id)) /\
  answers_follow_questions
    (history
       (serve (H := Stub.healthy)
          [ChatRequested
             {| json_message := Some "Hello?"; session_cookie := None;
                remote_addr := Some "203.0.113.7" |} Stub.env;
           UploadRequested [Stub.sky];
           ChatRequested
             {| json_message := Some "What color is the sky?";
                session_cookie := Some "203.0.113.7";
                remote_addr := Some "203.0.113.7" |} Stub.env]
          initial_state) "203.0.113.7").
Proof.
  assert (Hinit : forall session_id,
            answers_follow_questions (history initial_state session_id)).
  { intros session_id i a Hlook. discriminate Hlook. }
  split; [exact Hinit|].
  apply (answers_always_follow_questions (H := Stub.healthy) _ initial_state
           Hinit).
Defined.

Example stub_transcript_with_unanswered_question :
  history
    (serve (H := Stub.healthy)
       [ChatRequested
          {| json_message := Some "Hello?"; session_cookie := None;
             remote_addr := Some "203.0.113.7" |} Stub.env;
        UploadRequested [Stub.sky];
        ChatRequested
          {| json_message := Some "What color is the sky?";
             session_cookie := Some "203.0.113.7";
             remote_addr := Some "203.0.113.7" |} Stub.env]
       initial_state) "203.0.113.7"
  = [ {| type := human; content := "Hello?" |};
      {| type := human; content := "What color is the sky?" |};
      {| type := ai; content := "The sky is blue." |} ].
Proof. vm_compute. reflexivity. Qed.

(** ** A follow-up question ([chat], lines 242-269) *)

Section FollowUp.
Context `{Collaborators}.

Lemma resolve_session_returning (req req' : ChatRequest) (env env' : ChatEnv) :
  Py.truthy (fst (resolve_session req env)) = true ->
  session_cookie req' = snd (resolve_session req env) ->
  fst (resolve_session req' env') = fst (resolve_session req env).
Proof.
  intros Htruthy Hcookie. unfold resolve_session at 1. rewrite Hcookie.
  unfold resolve_session in Htruthy |- *.
  destruct (Py.truthy_opt (session_cookie req)) eqn:Hc.
  - simpl in *. rewrite Hc. reflexivity.
  - simpl in *. rewrite Htruthy. reflexivity.
Qed.

(** X18.  A client asks, gets a generated answer (the completion being
    ASCII text), and asks again presenting the cookie it was given: the
    second prompt sent to the model is built from the session's earlier turns
    followed by the first question and the first answer, in this order, and
    the call log holds the two prompts in the order they were sent. *)
Theorem follow_up_prompt_sees_first_exchange (req1 req2 : ChatRequest)
    (env1 env2 : ChatEnv) (s : State)
    (context1 context2 : list string) (context_str1 context_str2 : string)
    (response_time1 response_time2 : Z) (text1 : string) :
  Py.truthy (default "" (json_message req1)) = true ->
  Py.truthy (default "" (json_message req2)) = true ->
  fst (retrieve_documents (default "" (json_message req1)) env1 s)
    = Returns (Retrieved context1 context_str1 response_time1) ->
  groq_create
    (formatted_prompt (default "" (json_message req1)) context_str1
       (history s (fst (resolve_session req1 env1)))) = Returns text1 ->
  is_ascii text1 = true ->
  Py.truthy (fst (resolve_session req1 env1)) = true ->
  session_cookie req2 = snd (resolve_session req1 env1) ->
  fst (retrieve_documents (default "" (json_message req2)) env2 s)
    = Returns (Retrieved context2 context_str2 response_time2) ->
  groq_calls (snd (chat req2 env2 (snd (chat req1 env1 s)))) =
    groq_calls s ++
    [formatted_prompt (default "" (json_message req1)) context_str1
       (history s (fst (resolve_session req1 env1)));
     formatted_prompt (default "" (json_message req2)) context_str2
       (history s (fst (resolve_session req1 env1)) ++
        [{| type := human; content := default "" (json_message req1) |};
         {| type := ai; content := Py.strip text1 |}])].
Proof.
  intros Hmsg1 Hmsg2 Hret1 Htext1 _ Htruthy Hcookie Hret2.
  pose proof (resolve_session_returning req1 req2 env1 env2 Htruthy Hcookie)
    as Hsid.
  set (sid := fst (resolve_session req1 env1)) in *.
  set (u1 := {| type := human; content := default "" (json_message req1) |}).
  set (a1 := {| type := ai; content := Py.strip text1 |}).
  pose proof (chat_run req1 env1 s Hmsg1) as Hrun1. cbv zeta in Hrun1.
  rewrite Hret1 in Hrun1. fold sid u1 in Hrun1.
  unfold answer_for in Hrun1. rewrite Htext1 in Hrun1. fold a1 in Hrun1.
  rewrite Hrun1. simpl snd.
  set (s1 := push sid a1 _).
  assert (Hturns : history s1 sid = history s sid ++ [u1; a1]).
  { unfold s1. rewrite history_push.
    change (history (set_groq_calls ?g ?s0) ?i) with (history s0 i).
    rewrite history_push, <- app_assoc. reflexivity. }
  pose proof (chat_run req2 env2 s1 Hmsg2) as Hrun2. cbv zeta in Hrun2.
  rewrite (retrieve_documents_index_only s1 s) in Hrun2 by reflexivity.
  rewrite Hret2, Hsid in Hrun2. rewrite Hrun2. simpl snd.
  rewrite Hturns. simpl. rewrite <- app_assoc. reflexivity.
Qed.

End FollowUp.

Lemma follow_up_prompt_sees_first_exchange_witness :
  fst (retrieve_documents (H := Stub.healthy) "What color is the sky?"
         Stub.env Stub.indexed_state)
    = Returns (Retrieved ["The sky is blue."] "The sky is blue." 3) /\
  is_ascii (" The sky is blue. " +:+ Py.LF) = true /\
  groq_calls
    (snd (chat (H := Stub.healthy)
            {| json_message := Some "Always?";
               session_cookie := Some "203.0.113.7"; remote_addr := None |}
            Stub.env
            (snd (chat (H := Stub.healthy)
                    {| json_message := Some "What color is the sky?";
                       session_cookie := None;
                       remote_addr := Some "203.0.113.7" |}
                    Stub.env Stub.indexed_state))))
  = [formatted_prompt "What color is the sky?" "The sky is blue." [];
     formatted_prompt "Always?" "The sky is blue."
       [{| type := human; content := "What color is the sky?" |};
        {| type := ai; content := "The sky is blue." |}]].
Proof.
  split; [vm_compute; reflexivity|]. split; [reflexivity|].
  rewrite (follow_up_prompt_sees_first_exchange (H := Stub.healthy)
             {| json_message := Some "What color is the sky?";
                session_cookie := None; remote_addr := Some "203.0.113.7" |}
             {| json_message := Some "Always?";
                session_cookie := Some "203.0.113.7"; remote_addr := None |}
             Stub.env Stub.env Stub.indexed_state
             ["The sky is blue."] ["The sky is blue."]
             "The sky is blue." "The sky is blue." 3 3
             (" The sky is blue. " +:+ Py.LF));
    vm_compute; reflexivity.
Defined.
